(** * The GDP ETL pipeline and its two history backends

    A shallow embedding of [missions/W1/M3/etl_project_gdp.py] (the JSON
    document backend, module [Doc]) and of
    [missions/W1/M3/etl_project_gdp_with_sql.py] (the SQLite backend,
    module [Sql]).

    Conventions of the embedding.
    - A Python [str] is a list of Unicode code points.
    - A float64 column is modelled by the rational numbers its values denote;
      [numpy.round], SQLite's [ROUND] and [pandas.to_numeric] are written out
      over the rationals (infinities and exponent overflow are outside the
      model).
    - A [Processed_Time] is the instant it denotes, in whole seconds: the text
      ['%Y-%m-%d %H:%M:%S'] and the [datetime] truncated to the second order
      exactly as that number does.
    - [sort_values] (quicksort) and SQL's [ORDER BY] promise a sorted
      rearrangement and nothing about equal keys: they are taken as any
      [Sorter], and every theorem holds for all of them.
    - A function that logs returns the lines it hands to [log_progress]; one
      that may raise returns an [outcome].
    - [extract] (the network and the HTML parser) is not embedded: the entry
      points take what it returned or raised, and the lines it logs itself are
      left out of their logs. *)

From Stdlib Require Import ZArith NArith QArith Qround Qabs Lqa Lia.
From Stdlib Require Import Bool Ascii String List.
From Stdlib Require Import Permutation Sorted.
Import ListNotations.

(** ** Python strings *)

Module PyStr.

Definition char := N.
Definition str := list char.

(** An ASCII literal as a Python string. *)
Definition py (s : string) : str := map N_of_ascii (list_ascii_of_string s).

Definition str_eqb (a b : str) : bool :=
  if list_eq_dec N.eq_dec a b then true else false.

(** Code-point order, the order of [<] on Python strings. *)
Fixpoint str_leb (a b : str) : bool :=
  match a, b with
  | [], _ => true
  | _ :: _, [] => false
  | x :: a', y :: b' =>
      match (x ?= y)%N with
      | Lt => true
      | Gt => false
      | Eq => str_leb a' b'
      end
  end.

(** [str.isspace] on one code point: what [str.strip()] removes. *)
Definition is_space (c : char) : bool :=
  ((9 <=? c) && (c <=? 13) || (28 <=? c) && (c <=? 32)
   || (c =? 133) || (c =? 160) || (c =? 5760)
   || (8192 <=? c) && (c <=? 8202) || (c =? 8232) || (c =? 8233)
   || (c =? 8239) || (c =? 8287) || (c =? 12288))%N.

Fixpoint lstrip (s : str) : str :=
  match s with
  | c :: s' => if is_space c then lstrip s' else s
  | [] => []
  end.

Definition rstrip (s : str) : str := rev (lstrip (rev s)).

Definition strip (s : str) : str := rstrip (lstrip s).

(** The character classes of the pattern [[\(\[].*?[\)\]]]. *)
Definition is_open (c : char) : bool := ((c =? 40) || (c =? 91))%N.
Definition is_close (c : char) : bool := ((c =? 41) || (c =? 93))%N.
Definition is_newline (c : char) : bool := (c =? 10)%N.

(** Length of the match of [.*?[\)\]]] at the start of [s]: up to and with the
    nearest closing bracket, which [.] must reach without crossing a newline. *)
Fixpoint aside_len (s : str) : option nat :=
  match s with
  | [] => None
  | c :: s' =>
      if is_close c then Some 1%nat
      else if is_newline c then None
      else option_map S (aside_len s')
  end.

(** [re.sub(r'[\(\[].*?[\)\]]', '', s)], scanning left to right; [skip] is the
    number of characters of the current match still to be dropped. *)
Fixpoint re_sub (skip : nat) (s : str) : str :=
  match s with
  | [] => []
  | c :: s' =>
      match skip with
      | S k => re_sub k s'
      | O =>
          if is_open c then
            match aside_len s' with
            | Some n => re_sub n s'
            | None => c :: re_sub 0 s'
            end
          else c :: re_sub 0 s'
      end
  end.

Definition re_sub_aside (s : str) : str := re_sub 0 s.

(** [s.replace(',', '')]. *)
Definition remove_commas (s : str) : str :=
  filter (fun c => negb (c =? 44)%N) s.

End PyStr.

Import PyStr.

(** ** Numbers *)

Module Num.

Definition digit (c : char) : option Z :=
  if ((48 <=? c) && (c <=? 57))%N then Some (Z.of_N c - 48)%Z else None.

(** Reads the leading decimal digits of [s] onto [acc]; returns the number
    read, how many digits it had, and the rest. *)
Fixpoint digits (acc : Z) (n : nat) (s : str) : Z * nat * str :=
  match s with
  | c :: s' =>
      match digit c with
      | Some d => digits (10 * acc + d)%Z (S n) s'
      | None => (acc, n, s)
      end
  | [] => (acc, n, [])
  end.

(** C's [isspace] in the "C" locale, which the float parser skips at both
    ends. *)
Definition is_space_ascii (c : char) : bool :=
  ((c =? 32) || (9 <=? c) && (c <=? 13))%N.

Fixpoint skip_spaces (s : str) : str :=
  match s with
  | c :: s' => if is_space_ascii c then skip_spaces s' else s
  | [] => []
  end.

Definition sign (s : str) : Z * str :=
  match s with
  | 45%N :: s' => ((-1)%Z, s')
  | 43%N :: s' => (1%Z, s')
  | _ => (1%Z, s)
  end.

(** The optional exponent part [[eE][+-]?digits]. *)
Definition exponent (s : str) : option (Z * str) :=
  match s with
  | c :: s' =>
      if ((c =? 101) || (c =? 69))%N then
        let '(sg, s1) := sign s' in
        let '(e, ne, s2) := digits 0 0 s1 in
        match ne with
        | O => None
        | S _ => Some ((sg * e)%Z, s2)
        end
      else Some (0%Z, s)
  | [] => Some (0%Z, [])
  end.

Local Open Scope Q_scope.

(** [pd.to_numeric(..., errors='coerce')] on one cell: [None] is NaN. *)
Definition to_numeric (s : str) : option Q :=
  let '(sg, s1) := sign (skip_spaces s) in
  let '(i, ni, s2) := digits 0 0 s1 in
  let '(m, nf, s3) :=
    match s2 with
    | 46%N :: s2' => digits i 0 s2'
    | _ => (i, O, s2)
    end in
  match (ni + nf)%nat with
  | O => None
  | S _ =>
      match exponent s3 with
      | None => None
      | Some (e, s4) =>
          match skip_spaces s4 with
          | [] => Some (inject_Z (sg * m) * 10 ^ (e - Z.of_nat nf))
          | _ :: _ => None
          end
      end
  end.

(** Round half to even, [numpy.rint]. *)
Definition rint (x : Q) : Z :=
  let f := Qfloor x in
  match Qcompare (x - inject_Z f) (1 # 2) with
  | Lt => f
  | Gt => (f + 1)%Z
  | Eq => if Z.even f then f else (f + 1)%Z
  end.

(** [Series.round(2)]: [rint(x * 100) / 100]. *)
Definition np_round2 (x : Q) : Q := inject_Z (rint (x * 100)) / 100.

(** Round half away from zero. *)
Definition round_half_away (x : Q) : Z :=
  if Qle_bool 0 x then Qfloor (x + (1 # 2)) else (- Qfloor (- x + (1 # 2)))%Z.

(** SQLite's [ROUND(x, 2)]. *)
Definition sqlite_round2 (x : Q) : Q := inject_Z (round_half_away (x * 100)) / 100.

Definition Qsum (l : list Q) : Q := fold_right Qplus 0 l.

(** [Series.mean()] and SQL's [AVG]. *)
Definition mean (l : list Q) : Q := Qsum l / inject_Z (Z.of_nat (length l)).

End Num.

Import Num.

(** ** Frames, sorting and the process log *)

Module Frame.

Local Open Scope Q_scope.

(** A row of the frame [extract] returns: the columns [Country] and
    [GDP_USD_million], both text. *)
Record RawRow := { raw_Country : str; raw_GDP_USD_million : str }.

(** The four columns both backends persist and analyse. *)
Record Row := {
  Country : str;
  Region : str;
  GDP_USD_billion : Q;
  Processed_Time : Z
}.

Definition descending {A : Type} (key : A -> Q) (x y : A) : Prop := key y <= key x.

(** What [sort_values(by=..., ascending=False)] and [ORDER BY ... DESC]
    guarantee. *)
Record Sorter := {
  sort_desc : forall A : Type, (A -> Q) -> list A -> list A;
  sort_desc_perm : forall (A : Type) (key : A -> Q) (l : list A),
    Permutation l (sort_desc A key l);
  sort_desc_sorted : forall (A : Type) (key : A -> Q) (l : list A),
    StronglySorted (descending key) (sort_desc A key l)
}.

Arguments sort_desc _ [A] _ _.

(** A stable sort: among equal keys the earlier row stays first. *)
Fixpoint insert_desc {A : Type} (key : A -> Q) (x : A) (l : list A) : list A :=
  match l with
  | [] => [x]
  | y :: l' =>
      if Qle_bool (key y) (key x) then x :: l else y :: insert_desc key x l'
  end.

Definition isort_desc {A : Type} (key : A -> Q) (l : list A) : list A :=
  fold_right (insert_desc key) [] l.

(** [Series.nlargest(n)] (keep='first'): the first [n] of the values in
    descending order. *)
Definition nlargest (n : nat) (l : list Q) : list Q :=
  firstn n (isort_desc (fun v => v) l).

Fixpoint insert_str (x : str) (l : list str) : list str :=
  match l with
  | [] => [x]
  | y :: l' => if str_leb x y then x :: l else y :: insert_str x l'
  end.

(** The group keys of [groupby]: the distinct values, in ascending order. *)
Definition group_keys (l : list str) : list str :=
  fold_right insert_str [] (nodup (list_eq_dec N.eq_dec) l).

(** [MAX] of a column; [None] on no row (NaN in pandas, NULL in SQL). *)
Definition max_time (l : list Z) : option Z :=
  match l with
  | [] => None
  | t :: l' => Some (fold_left Z.max l' t)
  end.

Inductive exn :=
| HTTPError
| ValueError
| KeyError
| DatabaseError.

Inductive outcome (A : Type) :=
| Ok (a : A)
| Raise (e : exn).

Arguments Ok [A] a.
Arguments Raise {A} e.

(** The messages handed to [log_progress]. *)
Inductive Msg :=
| ETL_Process_Started
| Transform_phase_Started
| Transform_Filtered_out (filtered_count : nat)
| Transform_phase_Ended
| Load_phase_Started
| Load_New_records_appended
| Load_Warning (e : exn)
| Load_phase_Ended (total : nat)
| Load_to_DB_Started
| Load_to_DB_Ended
| Analysis_phase_Started
| Analysis_phase_Ended
| ETL_Process_Completed_Successfully
| ETL_Process_Failed (e : exn).

(** The cleaning both [transform]s apply to a [GDP_USD_million] cell before
    [to_numeric]: the regex replacement, [strip], then the comma removal. *)
Definition clean_value (raw : str) : str :=
  remove_commas (strip (re_sub_aside raw)).

(** [pd.to_numeric] over the cleaned column. *)
Definition coerce (df : list RawRow) : list (str * option Q) :=
  map (fun r => (raw_Country r, to_numeric (clean_value (raw_GDP_USD_million r)))) df.

(** [dropna(subset=['GDP_USD_million'])]. *)
Definition dropna (df : list (str * option Q)) : list (str * Q) :=
  flat_map (fun cv => match snd cv with
                      | Some m => [(fst cv, m)]
                      | None => []
                      end) df.

Definition Unknown : str := py "Unknown".

(** [df['Country'].map(region_map).fillna('Unknown')], or ['Unknown']
    throughout when [COUNTRY_REGION_JSON] does not exist. *)
Definition map_region (region_map : option (str -> option str)) (country : str) : str :=
  match region_map with
  | Some m =>
      match m country with
      | Some r => r
      | None => Unknown
      end
  | None => Unknown
  end.

End Frame.

Import Frame.

(** ** The document backend: [etl_project_gdp.py] *)

Module Doc.

Local Open Scope Q_scope.

(** A record of [JSON_PATH]: the frame [transform] returns keeps the
    [GDP_USD_million] column beside the four common ones. *)
Record DocRow := { GDP_USD_million : Q; columns :> Row }.

(** The content of [JSON_PATH], when the file exists. *)
Inductive File :=
| Unreadable
| Records (rows : list DocRow).

Definition read_json (f : File) : outcome (list DocRow) :=
  match f with
  | Unreadable => Raise ValueError
  | Records rows => Ok rows
  end.

Definition classified (region_map : option (str -> option str)) (now : Z)
    (cm : str * Q) : DocRow :=
  {| GDP_USD_million := snd cm;
     columns := {| Country := fst cm;
                   Region := map_region region_map (fst cm);
                   GDP_USD_billion := np_round2 (snd cm / 1000);
                   Processed_Time := now |} |}.

Definition transform (pandas : Sorter) (region_map : option (str -> option str))
    (now : Z) (df : list RawRow) : list DocRow * list Msg :=
  let initial_count := length df in
  let kept := dropna (coerce df) in
  let filtered_count := (initial_count - length kept)%nat in
  let rows := map (classified region_map now) kept in
  (sort_desc pandas (fun r : DocRow => GDP_USD_billion r) rows,
   [Transform_phase_Started]
   ++ (if (0 <? filtered_count)%nat then [Transform_Filtered_out filtered_count] else [])
   ++ [Transform_phase_Ended]).

(** [path] is [None] when [os.path.exists(path)] is false. *)
Definition load (df : list DocRow) (path : option File) : File * list Msg :=
  match path with
  | Some f =>
      match read_json f with
      | Ok existing_df =>
          let df' := existing_df ++ df in
          (Records df',
           [Load_phase_Started; Load_New_records_appended; Load_phase_Ended (length df')])
      | Raise e =>
          (Records df,
           [Load_phase_Started; Load_Warning e; Load_phase_Ended (length df)])
      end
  | None => (Records df, [Load_phase_Started; Load_phase_Ended (length df)])
  end.

(** What [run_analysis] prints: the reference time and its two tables (the
    1-based index it attaches is the position in the table). *)
Record Report := {
  latest_time : Z;
  high_gdp_df : list (str * str * Q);
  region_avg : list (str * Q)
}.

Definition latest_df (latest_time : Z) (df : list DocRow) : list DocRow :=
  filter (fun r : DocRow => (Processed_Time r =? latest_time)%Z) df.

Definition high_gdp (latest : list DocRow) : list (str * str * Q) :=
  map (fun r : DocRow => (Country r, Region r, GDP_USD_billion r))
      (filter (fun r : DocRow => Qle_bool 100 (GDP_USD_billion r)) latest).

(** The [GDP_USD_billion] values of one group of [groupby('Region')]. *)
Definition group (g : str) (latest : list DocRow) : list Q :=
  map (fun r : DocRow => GDP_USD_billion r)
      (filter (fun r : DocRow => str_eqb (Region r) g) latest).

Definition region_avg_series (latest : list DocRow) : list (str * Q) :=
  map (fun g => (g, mean (nlargest 5 (group g latest))))
      (group_keys (map (fun r : DocRow => Region r) latest)).

(** A history with no record is the JSON text of an empty array, which reads
    back as a frame with no column: [df['Processed_Time']] raises. *)
Definition run_analysis (pandas : Sorter) (df : list DocRow) : outcome Report * list Msg :=
  match max_time (map (fun r : DocRow => Processed_Time r) df) with
  | None => (Raise KeyError, [Analysis_phase_Started])
  | Some t =>
      let latest := latest_df t df in
      (Ok {| latest_time := t;
             high_gdp_df := high_gdp latest;
             region_avg := sort_desc pandas snd (region_avg_series latest) |},
       [Analysis_phase_Started; Analysis_phase_Ended])
  end.

(** Step 4 of the entry point: the analysis runs only if [JSON_PATH] exists. *)
Definition analysis_step (pandas : Sorter) (path : option File)
    : outcome (option Report) * list Msg :=
  match path with
  | None => (Ok None, [])
  | Some f =>
      match read_json f with
      | Raise e => (Raise e, [])
      | Ok history_df =>
          match run_analysis pandas history_df with
          | (Ok r, log) => (Ok (Some r), log)
          | (Raise e, log) => (Raise e, log)
          end
      end
  end.

(** The entry point, after [extract]: [raw_data] is what [extract] returned or
    raised. It yields the file, the log and the report printed, if any. *)
Definition main (pandas : Sorter) (region_map : option (str -> option str)) (now : Z)
    (raw_data : outcome (list RawRow)) (path : option File)
    : option File * list Msg * option Report :=
  match raw_data with
  | Raise e => (path, [ETL_Process_Started; ETL_Process_Failed e], None)
  | Ok [] => (path, [ETL_Process_Started], None)
  | Ok raw =>
      let '(transformed_data, log_t) := transform pandas region_map now raw in
      let '(file, log_l) := load transformed_data path in
      match analysis_step pandas (Some file) with
      | (Ok r, log_a) =>
          (Some file,
           [ETL_Process_Started] ++ log_t ++ log_l ++ log_a
           ++ [ETL_Process_Completed_Successfully], r)
      | (Raise e, log_a) =>
          (Some file,
           [ETL_Process_Started] ++ log_t ++ log_l ++ log_a ++ [ETL_Process_Failed e],
           None)
      end
  end.

End Doc.

(** ** The relational backend: [etl_project_gdp_with_sql.py] *)

Module Sql.

Local Open Scope Q_scope.

(** A row of [TABLE_NAME]: the key [id] and the four columns. *)
Record DbRow := { id : Z; fields :> Row }.

Definition Table := list DbRow.

Definition classified (region_map : option (str -> option str)) (now : Z)
    (cm : str * Q) : Row :=
  {| Country := fst cm;
     Region := map_region region_map (fst cm);
     GDP_USD_billion := np_round2 (snd cm / 1000);
     Processed_Time := now |}.

Definition transform (region_map : option (str -> option str)) (now : Z)
    (df : list RawRow) : list Row * list Msg :=
  (map (classified region_map now) (dropna (coerce df)),
   [Transform_phase_Started; Transform_phase_Ended]).

(** [INTEGER PRIMARY KEY AUTOINCREMENT]: one more than the largest key. *)
Definition next_id (t : Table) : Z :=
  (1 + fold_right Z.max 0 (map id t))%Z.

Definition insert (t : Table) (r : Row) : Table :=
  t ++ [{| id := next_id t; fields := r |}].

(** [db] is [None] while the table does not exist; [CREATE TABLE IF NOT
    EXISTS] then [to_sql(if_exists='append')]. *)
Definition load_to_db (df : list Row) (db : option Table) : Table * list Msg :=
  let t := match db with
           | Some t => t
           | None => []
           end in
  (fold_left insert df t, [Load_to_DB_Started; Load_to_DB_Ended]).

Record Report := {
  latest_time : option Z;
  high_gdp_df : list (str * str * Q);
  region_avg_df : list (str * Q)
}.

(** [WHERE Processed_Time = ?]: no row equals NULL. *)
Definition at_time (latest_time : option Z) (r : DbRow) : bool :=
  match latest_time with
  | Some t => (Processed_Time r =? t)%Z
  | None => false
  end.

Definition query_100b (sqlite : Sorter) (latest_time : option Z) (t : Table)
    : list (str * str * Q) :=
  map (fun r : DbRow => (Country r, Region r, GDP_USD_billion r))
      (sort_desc sqlite (fun r : DbRow => GDP_USD_billion r)
         (filter (fun r : DbRow => Qle_bool 100 (GDP_USD_billion r) && at_time latest_time r) t)).

(** One partition of [RankedGDP]: its values with their [ROW_NUMBER()]. *)
Definition RankedGDP (sqlite : Sorter) (g : str) (rows : list DbRow) : list (nat * Q) :=
  let part := map (fun r : DbRow => GDP_USD_billion r)
                  (filter (fun r : DbRow => str_eqb (Region r) g) rows) in
  let ordered := sort_desc sqlite (fun v => v) part in
  combine (seq 1 (length ordered)) ordered.

Definition Average_GDP (sqlite : Sorter) (g : str) (rows : list DbRow) : Q :=
  sqlite_round2
    (mean (map snd (filter (fun rv => (fst rv <=? 5)%nat) (RankedGDP sqlite g rows)))).

Definition query_top5_avg (sqlite : Sorter) (latest_time : option Z) (t : Table)
    : list (str * Q) :=
  let rows := filter (at_time latest_time) t in
  sort_desc sqlite snd
    (map (fun g => (g, Average_GDP sqlite g rows))
         (nodup (list_eq_dec N.eq_dec) (map (fun r : DbRow => Region r) rows))).

Definition run_sql_analysis (sqlite : Sorter) (db : option Table)
    : outcome Report * list Msg :=
  match db with
  | None => (Raise DatabaseError, [Analysis_phase_Started])
  | Some t =>
      let latest_time := max_time (map (fun r : DbRow => Processed_Time r) t) in
      (Ok {| latest_time := latest_time;
             high_gdp_df := query_100b sqlite latest_time t;
             region_avg_df := query_top5_avg sqlite latest_time t |},
       [Analysis_phase_Started; Analysis_phase_Ended])
  end.

Definition main (sqlite : Sorter) (region_map : option (str -> option str)) (now : Z)
    (raw_data : outcome (list RawRow)) (db : option Table)
    : option Table * list Msg * option Report :=
  match raw_data with
  | Raise e => (db, [ETL_Process_Started; ETL_Process_Failed e], None)
  | Ok [] => (db, [ETL_Process_Started], None)
  | Ok raw =>
      let '(transformed_data, log_t) := transform region_map now raw in
      let '(table, log_l) := load_to_db transformed_data db in
      match run_sql_analysis sqlite (Some table) with
      | (Ok r, log_a) =>
          (Some table,
           [ETL_Process_Started] ++ log_t ++ log_l ++ log_a
           ++ [ETL_Process_Completed_Successfully], Some r)
      | (Raise e, log_a) =>
          (Some table,
           [ETL_Process_Started] ++ log_t ++ log_l ++ log_a ++ [ETL_Process_Failed e],
           None)
      end
  end.

End Sql.

Coercion Doc.columns : Doc.DocRow >-> Row.
Coercion Sql.fields : Sql.DbRow >-> Row.

(** * The specification's notions *)

Local Open Scope Q_scope.

Definition plain_char (c : char) : Prop := is_close c = false /\ is_newline c = false.



(** The spec's [round(x, 2)]: a multiple of 0.01 nearest to [x]. *)
Definition rounded_to_2_decimals (x y : Q) : Prop :=
  (exists n : Z, y == inject_Z n / 100) /\ Qabs (y - x) <= 1 # 200.

(** The cell is one [to_numeric] rejects once cleaned. *)
Definition non_numeric (r : RawRow) : bool :=
  match to_numeric (clean_value (raw_GDP_USD_million r)) with
  | Some _ => false
  | None => true
  end.


(** The three columns both reports show. *)
Definition shown (r : Row) : str * str * Q := (Country r, Region r, GDP_USD_billion r).

(** The spec's top-K average: [a] is the arithmetic mean of the [k] largest
    of [vals], of all of them when there are fewer than [k]. *)
Definition top_k_average (k : nat) (vals : list Q) (a : Q) : Prop :=
  exists top rest,
    Permutation (top ++ rest) vals
    /\ length top = Nat.min k (length vals)
    /\ (forall x y, In x top -> In y rest -> y <= x)
    /\ a == mean top.



(** ** Observations and sample data *)

Definition raw (country value : string) : RawRow :=
  {| raw_Country := py country; raw_GDP_USD_million := py value |}.

(** Three countries of one region, 1.00, 1.00 and 1.01 billion. *)
Definition sample_raw : list RawRow :=
  [raw "A" "1,000 (2024)"; raw "B" "1,000"; raw "C" "1,010[n 1]"].

(** A batch whose second cell is an em dash. *)
Definition dashed_raw : list RawRow :=
  [raw "A" "1,000"; {| raw_Country := py "B"; raw_GDP_USD_million := [8212%N] |}].

(** One snapshot stamped [t] whose rows carry [vals], in that order. *)
Definition snapshot_of (t : Z) (vals : list Q) : list Row :=
  map (fun v => {| Country := py "c"; Region := Unknown;
                   GDP_USD_billion := v; Processed_Time := t |}) vals.

Definition doc_snapshot_of (t : Z) (vals : list Q) : list Doc.DocRow :=
  map (fun r => {| Doc.GDP_USD_million := GDP_USD_billion r * 1000; Doc.columns := r |})
      (snapshot_of t vals).

Definition sql_snapshot_of (t : Z) (vals : list Q) : Sql.Table :=
  fst (Sql.load_to_db (snapshot_of t vals) None).

Definition doc_threshold_magnitudes (pandas : Sorter) (df : list Doc.DocRow) : list Q :=
  match fst (Doc.run_analysis pandas df) with
  | Ok report => map snd (Doc.high_gdp_df report)
  | Raise _ => []
  end.

Definition sql_threshold_magnitudes (sqlite : Sorter) (t : Sql.Table) : list Q :=
  match fst (Sql.run_sql_analysis sqlite (Some t)) with
  | Ok report => map snd (Sql.high_gdp_df report)
  | Raise _ => []
  end.

Definition doc_averages (pandas : Sorter) (df : list Doc.DocRow) : list Q :=
  match fst (Doc.run_analysis pandas df) with
  | Ok report => map (fun ga => Qred (snd ga)) (Doc.region_avg report)
  | Raise _ => []
  end.



(** * The extraction and the whole run *)

(** ** [extract], over the parsed page *)

Module Page.

(** A [td] as [extract] reads it: the stripped text of its first link, when
    [find('a')] finds one, and its own [get_text(strip=True)]. *)
Record Td := { find_a : option str; get_text : str }.

(** A [tr]: [get('class')], whether [find('th')] finds a header cell, and
    [find_all('td')]. *)
Record Tr := { get_class : option (list str); find_th : bool; find_all_td : list Td }.

(** A [table] of class [wikitable]: its [text] and [find_all('tr')]. *)
Record Table := { text : str; find_all_tr : list Tr }.

Inductive Line :=
| Extract_phase_Started
| Extract_phase_Failed
| Extract_phase_Ended (rows_fetched : nat).

Definition marker : str := py "GDP forecast or estimate (million US$) by country".

Fixpoint starts_with (p s : str) : bool :=
  match p, s with
  | [], _ => true
  | _ :: _, [] => false
  | x :: p', y :: s' => (x =? y)%N && starts_with p' s'
  end.

(** [p in s] on strings. *)
Fixpoint contains (p s : str) : bool :=
  starts_with p s
  || match s with
     | [] => false
     | _ :: s' => contains p s'
     end.

(** [isinstance(row_classes, list) and 'static-row-header' in row_classes]. *)
Definition is_static_header (row : Tr) : bool :=
  match get_class row with
  | Some row_classes => existsb (str_eqb (py "static-row-header")) row_classes
  | None => false
  end.

(** One turn of the loop over the rows: [df] is the frame built so far. *)
Definition row_step (df : list RawRow) (row : Tr) : list RawRow :=
  if find_th row || is_static_header row then df
  else
    match find_all_td row with
    | c0 :: c1 :: _ :: _ =>
        df ++ [{| raw_Country := match find_a c0 with
                                 | Some country => country
                                 | None => get_text c0
                                 end;
                  raw_GDP_USD_million := get_text c1 |}]
    | _ => df
    end.

Definition rows_loop (rows : list Tr) : list RawRow := fold_left row_step rows [].

(** The search of [etl_project_gdp.py]: a loop left by [break]. *)
Fixpoint target_loop (tables : list Table) : option Table :=
  match tables with
  | [] => None
  | table :: tables' =>
      if contains marker (text table) then Some table else target_loop tables'
  end.

(** The search of [etl_project_gdp_with_sql.py]: [next] over a generator. *)
Definition target_next (tables : list Table) : option Table :=
  hd_error (filter (fun t => contains marker (text t)) tables).

(** [extract], given how the target table is searched; [response] is the list
    of [wikitable] tables of the page, or the error of the request. *)
Definition extract_with (search : list Table -> option Table)
    (response : outcome (list Table)) : outcome (list RawRow) * list Line :=
  match response with
  | Raise e => (Raise e, [Extract_phase_Started])
  | Ok tables =>
      match search tables with
      | None => (Raise ValueError, [Extract_phase_Started; Extract_phase_Failed])
      | Some target_table =>
          let df := rows_loop (find_all_tr target_table) in
          (Ok df, [Extract_phase_Started; Extract_phase_Ended (length df)])
      end
  end.

(** A line of the log file of a whole run. *)
Inductive Logged :=
| By_extract (l : Line)
| By_run (m : Msg).

(** The lines of a run in the order written: ['ETL Process Started'], what
    [extract] logs, then the rest. *)
Definition run_log (log_e : list Line) (log : list Msg) : list Logged :=
  match log with
  | started :: log' => By_run started :: map By_extract log_e ++ map By_run log'
  | [] => map By_extract log_e
  end.

End Page.

Module DocRun.

Definition extract : outcome (list Page.Table) -> outcome (list RawRow) * list Page.Line :=
  Page.extract_with Page.target_loop.

(** The [__main__] block of [etl_project_gdp.py]. *)
Definition run (pandas : Sorter) (region_map : option (str -> option str)) (now : Z)
    (response : outcome (list Page.Table)) (path : option Doc.File)
    : option Doc.File * list Page.Logged * option Doc.Report :=
  let '(raw_data, log_e) := extract response in
  let '(file, log, report) := Doc.main pandas region_map now raw_data path in
  (file, Page.run_log log_e log, report).

End DocRun.

Module SqlRun.

Definition extract : outcome (list Page.Table) -> outcome (list RawRow) * list Page.Line :=
  Page.extract_with Page.target_next.

(** The [__main__] block of [etl_project_gdp_with_sql.py]. *)
Definition run (sqlite : Sorter) (region_map : option (str -> option str)) (now : Z)
    (response : outcome (list Page.Table)) (db : option Sql.Table)
    : option Sql.Table * list Page.Logged * option Sql.Report :=
  let '(raw_data, log_e) := extract response in
  let '(table, log, report) := Sql.main sqlite region_map now raw_data db in
  (table, Page.run_log log_e log, report).

End SqlRun.

(** The row [extract] makes of a [tr] it keeps. *)
Definition raw_of (row : Page.Tr) : RawRow :=
  match Page.find_all_td row with
  | c0 :: c1 :: _ =>
      {| raw_Country := match Page.find_a c0 with
                        | Some country => country
                        | None => Page.get_text c0
                        end;
         raw_GDP_USD_million := Page.get_text c1 |}
  | _ => {| raw_Country := []; raw_GDP_USD_million := [] |}
  end.

(** A data row: no header cell, not a static header, at least three cells. *)
Definition data_row (row : Page.Tr) : bool :=
  negb (Page.find_th row) && negb (Page.is_static_header row)
  && (3 <=? length (Page.find_all_td row))%nat.

(** The number a string of decimal digits writes. *)
Definition number (digits : str) : Z :=
  fold_left (fun acc c => (10 * acc + (Z.of_N c - 48))%Z) digits 0%Z.

Definition is_digit (c : char) : bool := ((48 <=? c) && (c <=? 57))%N.

(** The characters a text [to_numeric] accepts is made of. *)
Definition numeric_char (c : char) : bool :=
  is_digit c || is_space_ascii c
  || (c =? 43)%N || (c =? 45)%N || (c =? 46)%N || (c =? 101)%N || (c =? 69)%N.


(** ** Notions of the further properties *)

(** A character that cannot be part of a number and that the cleaning does not
    remove. *)
Definition junk (c : char) : bool :=
  negb (numeric_char c) && negb (is_space c) && negb (c =? 44)%N.


(** The rows of [TABLE_NAME]: none while the table does not exist. *)
Definition table_rows (db : option Sql.Table) : Sql.Table :=
  match db with
  | Some t => t
  | None => []
  end.



(** * Properties *)

(** ** The stable sort is a sorter *)

Lemma insert_desc_perm {A : Type} (key : A -> Q) (x : A) (l : list A) :
  Permutation (x :: l) (insert_desc key x l).
Proof.
  induction l as [|y l IH]; simpl.
  - apply Permutation_refl.
  - destruct (Qle_bool (key y) (key x)).
    + apply Permutation_refl.
    + eapply perm_trans; [apply perm_swap|]. now apply perm_skip.
Qed.

Lemma isort_desc_perm {A : Type} (key : A -> Q) (l : list A) :
  Permutation l (isort_desc key l).
Proof.
  induction l as [|x l IH]; simpl.
  - constructor.
  - eapply perm_trans; [apply perm_skip, IH|]. apply insert_desc_perm.
Qed.

Lemma insert_desc_sorted {A : Type} (key : A -> Q) (x : A) (l : list A) :
  StronglySorted (descending key) l ->
  StronglySorted (descending key) (insert_desc key x l).
Proof.
  induction 1 as [|y l Hs IH Hy]; simpl.
  - repeat constructor.
  - destruct (Qle_bool (key y) (key x)) eqn:E.
    + apply Qle_bool_iff in E. constructor; [now constructor|].
      constructor; [exact E|].
      eapply Forall_impl; [|exact Hy].
      intros z Hz. unfold descending in *. now apply Qle_trans with (key y).
    + constructor; [exact IH|].
      assert (Hxy : key x <= key y).
      { destruct (Qlt_le_dec (key y) (key x)) as [Hlt|Hle]; [|exact Hle].
        apply Qlt_le_weak in Hlt. apply Qle_bool_iff in Hlt. congruence. }
      eapply Permutation_Forall; [apply insert_desc_perm|].
      now constructor.
Qed.

Lemma isort_desc_sorted {A : Type} (key : A -> Q) (l : list A) :
  StronglySorted (descending key) (isort_desc key l).
Proof.
  induction l as [|x l IH]; simpl.
  - constructor.
  - now apply insert_desc_sorted.
Qed.

(** The stable insertion sort, one [Sorter] among others. *)
Definition stable : Sorter :=
  {| sort_desc := @isort_desc;
     sort_desc_perm := @isort_desc_perm;
     sort_desc_sorted := @isort_desc_sorted |}.

(** ** Value normalization *)


Lemma aside_len_plain body c rest :
  Forall plain_char body -> is_close c = true ->
  aside_len (body ++ c :: rest) = Some (S (length body)).
Proof.
  induction 1 as [|x body [Hc Hn] _ IH]; simpl; intros H.
  - now rewrite H.
  - rewrite Hc, Hn, (IH H). reflexivity.
Qed.



Lemma re_sub_skip a b : re_sub (length a) (a ++ b) = re_sub 0 b.
Proof. induction a as [|x a IH]; simpl; [reflexivity | exact IH]. Qed.

Lemma re_sub_cut body c rest :
  re_sub (S (length body)) (body ++ c :: rest) = re_sub 0 rest.
Proof.
  replace (body ++ c :: rest) with ((body ++ [c]) ++ rest)
    by (rewrite <- app_assoc; reflexivity).
  replace (S (length body)) with (length (body ++ [c])).
  - apply re_sub_skip.
  - rewrite length_app. simpl. lia.
Qed.




(** ** Rounding to two decimals *)





(** ** Rows kept and rows dropped *)


Lemma dropna_coerce_filter df :
  dropna (coerce df)
  = flat_map (fun r => match to_numeric (clean_value (raw_GDP_USD_million r)) with
                       | Some m => [(raw_Country r, m)]
                       | None => []
                       end) df.
Proof.
  unfold dropna, coerce. induction df as [|r df IH]; simpl; [reflexivity|].
  now rewrite IH.
Qed.

Lemma length_dropna_coerce df :
  (length (dropna (coerce df)) + length (filter non_numeric df) = length df)%nat.
Proof.
  rewrite dropna_coerce_filter. unfold non_numeric.
  induction df as [|r df IH]; simpl; [reflexivity|].
  destruct (to_numeric _); simpl; lia.
Qed.

Lemma map_fst_dropna_coerce df :
  map fst (dropna (coerce df))
  = map raw_Country (filter (fun r => negb (non_numeric r)) df).
Proof.
  rewrite dropna_coerce_filter. unfold non_numeric.
  induction df as [|r df IH]; simpl; [reflexivity|].
  destruct (to_numeric _); simpl; now rewrite IH.
Qed.

(** C6. Dropped-row accounting, on the code: both [transform]s drop exactly
    the rows whose cleaned text is not numeric and keep the others; the
    document backend logs their count when it is positive; the relational
    backend logs the same two lines whatever was dropped and returns the rows
    alone, so the count reaches nobody. On [dashed_raw] the document backend
    logs that 1 row was filtered out and the relational backend logs
    nothing of it. *)
Theorem dropped_rows_counted_by_document_backend_only
    (pandas : Sorter) (region_map : option (str -> option str)) (now : Z)
    (df : list RawRow) :
  let n := length (filter non_numeric df) in
  length (fst (Doc.transform pandas region_map now df)) = (length df - n)%nat
  /\ snd (Doc.transform pandas region_map now df)
     = [Transform_phase_Started]
       ++ (if (0 <? n)%nat then [Transform_Filtered_out n] else [])
       ++ [Transform_phase_Ended]
  /\ length (fst (Sql.transform region_map now df)) = (length df - n)%nat
  /\ snd (Sql.transform region_map now df)
     = [Transform_phase_Started; Transform_phase_Ended]
  /\ snd (Doc.transform pandas region_map now dashed_raw)
     = [Transform_phase_Started; Transform_Filtered_out 1; Transform_phase_Ended]
  /\ map Country (fst (Sql.transform region_map now dashed_raw)) = [py "A"]
  /\ snd (Sql.transform region_map now dashed_raw)
     = [Transform_phase_Started; Transform_phase_Ended].
Proof.
  intros n. pose proof (length_dropna_coerce df) as Hlen. fold n in Hlen.
  assert (Hn : (length df - length (dropna (coerce df)) = n)%nat) by lia.
  unfold Doc.transform, Sql.transform; simpl fst; simpl snd.
  split; [|split; [|split; [|split; [|split; [|split]]]]]; try reflexivity.
  - rewrite <- (Permutation_length (sort_desc_perm pandas _ _ _)), length_map. lia.
  - now rewrite Hn.
  - rewrite length_map. lia.
Qed.




(** ** The document history *)

Lemma fold_left_max_le (l : list Z) (t : Z) :
  (t <= fold_left Z.max l t)%Z /\ Forall (fun x => (x <= fold_left Z.max l t)%Z) l.
Proof.
  revert t. induction l as [|x l IH]; intros t; simpl.
  - split; [lia | constructor].
  - destruct (IH (Z.max t x)) as [H1 H2]. split; [lia|].
    constructor; [lia | exact H2].
Qed.

Lemma fold_left_max_in (l : list Z) (t : Z) :
  fold_left Z.max l t = t \/ In (fold_left Z.max l t) l.
Proof.
  revert t. induction l as [|x l IH]; intros t; simpl; [now left|].
  destruct (IH (Z.max t x)) as [H|H]; [|now right; right].
  rewrite H. destruct (Z.max_spec t x) as [[_ ->]|[_ ->]]; auto.
Qed.

Lemma max_time_spec (l : list Z) (t : Z) :
  max_time l = Some t <-> In t l /\ Forall (fun x => (x <= t)%Z) l.
Proof.
  destruct l as [|x l]; simpl.
  - split; [discriminate | intros [[] _]].
  - split.
    + intros [= <-]. destruct (fold_left_max_le l x) as [H1 H2]. split.
      * destruct (fold_left_max_in l x) as [->|H]; auto.
      * now constructor.
    + intros [Hin Hall]. f_equal. apply Z.le_antisymm.
      * destruct (fold_left_max_in l x) as [->|H].
        -- now inversion Hall.
        -- rewrite Forall_forall in Hall. apply Hall. now right.
      * destruct (fold_left_max_le l x) as [H1 H2].
        destruct Hin as [<-|Hin]; [exact H1|].
        rewrite Forall_forall in H2. now apply H2.
Qed.

Lemma filter_all {A : Type} (f : A -> bool) (l : list A) :
  (forall x, In x l -> f x = true) -> filter f l = l.
Proof.
  induction l as [|x l IH]; simpl; intros H; [reflexivity|].
  rewrite (H x (or_introl eq_refl)). f_equal. apply IH. intros y Hy. apply H. now right.
Qed.

Lemma filter_none {A : Type} (f : A -> bool) (l : list A) :
  (forall x, In x l -> f x = false) -> filter f l = [].
Proof.
  induction l as [|x l IH]; simpl; intros H; [reflexivity|].
  rewrite (H x (or_introl eq_refl)). apply IH. intros y Hy. apply H. now right.
Qed.




(** C8. Corrupt-history recovery: when [JSON_PATH] exists and does not parse,
    [load] returns normally, logs the read failure as a warning and writes the
    new rows alone; through the entry point the file ends up holding just the
    rows [transform] returned, and the run is not failed by the read error. *)
Theorem corrupt_history_recovery
    (pandas : Sorter) (region_map : option (str -> option str)) (now : Z)
    (df : list Doc.DocRow) (raw : list RawRow) :
  Doc.load df (Some Doc.Unreadable)
  = (Doc.Records df,
     [Load_phase_Started; Load_Warning ValueError; Load_phase_Ended (length df)])
  /\ (raw <> [] ->
      let '(file, log, _) :=
        Doc.main pandas region_map now (Ok raw) (Some Doc.Unreadable) in
      file = Some (Doc.Records (fst (Doc.transform pandas region_map now raw)))
      /\ In (Load_Warning ValueError) log
      /\ ~ In (ETL_Process_Failed ValueError) log).
Proof.
  split; [reflexivity|]. intros Hraw.
  destruct raw as [|r raw]; [congruence|].
  unfold Doc.main.
  destruct (Doc.transform pandas region_map now (r :: raw)) as [rows log_t] eqn:Et.
  assert (Hlt : ~ In (ETL_Process_Failed ValueError) log_t).
  { unfold Doc.transform in Et. injection Et as _ <-.
    destruct (0 <? _)%nat; simpl; intuition discriminate. }
  simpl Doc.load. cbv iota beta. simpl fst.
  unfold Doc.analysis_step, Doc.read_json, Doc.run_analysis.
  destruct (max_time _) as [t|]; simpl.
  - split; [reflexivity|]. split.
    + right. apply in_or_app. right. simpl. auto.
    + intros [H|H]; [discriminate|]. apply in_app_or in H as [H|H]; [tauto|].
      simpl in H. intuition discriminate.
  - split; [reflexivity|]. split.
    + right. apply in_or_app. right. simpl. auto.
    + intros [H|H]; [discriminate|]. apply in_app_or in H as [H|H]; [tauto|].
      simpl in H. intuition discriminate.
Qed.

(** A run over [sample_raw] that finds an unreadable history file. *)
Lemma corrupt_history_recovery_witness :
  let '(file, log, _) :=
    Doc.main stable None 0 (Ok sample_raw) (Some Doc.Unreadable) in
  file = Some (Doc.Records (fst (Doc.transform stable None 0 sample_raw)))
  /\ In (Load_Warning ValueError) log
  /\ ~ In (ETL_Process_Failed ValueError) log.
Proof.
  apply (proj2 (corrupt_history_recovery stable None 0 [] sample_raw)). discriminate.
Defined.

(** C9 (amended). No history: neither backend has an error of its own for it.
    The document entry point skips the analysis when [JSON_PATH] does not
    exist; [run_sql_analysis] raises the database error of its first query
    when the table does not exist, before anything is printed, and on a table
    with no row it returns a null reference time and two empty tables. *)
Theorem analysis_without_history (pandas sqlite : Sorter) :
  Doc.analysis_step pandas None = (Ok None, [])
  /\ Sql.run_sql_analysis sqlite None = (Raise DatabaseError, [Analysis_phase_Started])
  /\ Sql.run_sql_analysis sqlite (Some [])
     = (Ok {| Sql.latest_time := None; Sql.high_gdp_df := []; Sql.region_avg_df := [] |},
        [Analysis_phase_Started; Analysis_phase_Ended]).
Proof.
  split; [reflexivity|]. split; [reflexivity|].
  unfold Sql.run_sql_analysis, Sql.query_100b, Sql.query_top5_avg. simpl.
  pose proof (sort_desc_perm sqlite _ (fun r : Sql.DbRow => GDP_USD_billion r) []) as P1.
  pose proof (sort_desc_perm sqlite _ (@snd str Q) []) as P2.
  apply Permutation_nil in P1, P2. now rewrite P1, P2.
Qed.

(** C9, refuted as stated: with no history file the document entry point
    returns normally with no report, and a relational run whose every row is
    dropped ends successfully on an empty report. *)
Lemma no_history_is_no_error :
  Doc.analysis_step stable None = (Ok None, [])
  /\ Sql.main stable None 0
       (Ok [raw "X" "n/a"]) None
     = (Some [],
        [ETL_Process_Started; Transform_phase_Started; Transform_phase_Ended;
         Load_to_DB_Started; Load_to_DB_Ended;
         Analysis_phase_Started; Analysis_phase_Ended;
         ETL_Process_Completed_Successfully],
        Some {| Sql.latest_time := None; Sql.high_gdp_df := [];
                Sql.region_avg_df := [] |}).
Proof. split; reflexivity. Qed.

(** ** Sorted frames *)

Lemma filter_andb {A : Type} (f g : A -> bool) (l : list A) :
  filter (fun x => f x && g x) l = filter f (filter g l).
Proof.
  induction l as [|x l IH]; simpl; [reflexivity|].
  destruct (g x); simpl; [destruct (f x)|rewrite andb_false_r]; simpl; now rewrite ?IH.
Qed.

Lemma StronglySorted_filter {A : Type} (R : A -> A -> Prop) (f : A -> bool) (l : list A) :
  StronglySorted R l -> StronglySorted R (filter f l).
Proof.
  induction 1 as [|x l Hs IH Hx]; simpl; [constructor|].
  destruct (f x); [|exact IH].
  constructor; [exact IH|].
  rewrite Forall_forall in *. intros y Hy. apply filter_In in Hy as [Hy _]. now apply Hx.
Qed.

Lemma StronglySorted_map {A B : Type} (R : B -> B -> Prop) (f : A -> B) (l : list A) :
  StronglySorted (fun x y => R (f x) (f y)) l -> StronglySorted R (map f l).
Proof.
  induction 1 as [|x l Hs IH Hx]; simpl; constructor; [exact IH|].
  rewrite Forall_forall in *. intros y Hy. apply in_map_iff in Hy as (z & <- & Hz).
  now apply Hx.
Qed.

(** Where no two keys are equal the descending order is the only one a sorter
    can return. *)
Lemma sorted_perm_strict_unique {A : Type} (key : A -> Q) (l l' : list A) :
  StronglySorted (fun x y => key y < key x) l ->
  Permutation l l' ->
  StronglySorted (descending key) l' ->
  l' = l.
Proof.
  intros Hl. revert l'. induction Hl as [|x t Ht IH Hx]; intros l' P Hl'.
  - now apply Permutation_nil in P.
  - destruct l' as [|y t']; [now apply Permutation_sym, Permutation_nil in P|].
    inversion Hl' as [|? ? Ht' Hy]; subst.
    rewrite Forall_forall in Hx, Hy.
    assert (E : y = x).
    { pose proof (Permutation_in y (Permutation_sym P) (or_introl eq_refl)) as [E|Hyt];
        [now symmetry|].
      apply Hx in Hyt.
      pose proof (Permutation_in x P (or_introl eq_refl)) as [E|Hxt']; [now symmetry|].
      apply Hy in Hxt'. unfold descending in Hxt'. lra. }
    subst y. f_equal. apply IH; [|exact Ht'].
    now apply Permutation_cons_inv in P.
Qed.

(** C10. Row order of the two [transform]s: the document backend returns its
    rows in descending [GDP_USD_billion] order, the relational backend returns
    the same rows in the order of its input, the rows dropped apart. So an
    input of 1 then 2 billion is persisted as 2, 1 by the document backend and
    as 1, 2 by the relational one. *)
Theorem transform_row_order
    (pandas : Sorter) (region_map : option (str -> option str)) (now : Z)
    (df : list RawRow) :
  StronglySorted (descending (fun r : Doc.DocRow => GDP_USD_billion r))
    (fst (Doc.transform pandas region_map now df))
  /\ Permutation (map Doc.columns (fst (Doc.transform pandas region_map now df)))
       (fst (Sql.transform region_map now df))
  /\ map Country (fst (Sql.transform region_map now df))
     = map raw_Country (filter (fun r => negb (non_numeric r)) df)
  /\ map (fun r : Doc.DocRow => Country r)
       (fst (Doc.transform pandas region_map now [raw "A" "1,000"; raw "B" "2,000"]))
     = [py "B"; py "A"]
  /\ map Country (fst (Sql.transform region_map now [raw "A" "1,000"; raw "B" "2,000"]))
     = [py "A"; py "B"].
Proof.
  simpl fst. split; [apply sort_desc_sorted|]. split; [|split; [|split]].
  - eapply perm_trans.
    + apply Permutation_map, Permutation_sym, sort_desc_perm.
    + rewrite map_map. apply Permutation_refl.
  - rewrite map_map. simpl. rewrite <- map_fst_dropna_coerce.
    reflexivity.
  - match goal with
    | |- context [sort_desc _ ?key [?a; ?b]] =>
        rewrite (sorted_perm_strict_unique key [b; a] (sort_desc pandas key [a; b]))
    end.
    + reflexivity.
    + repeat constructor.
    + eapply perm_trans; [apply perm_swap | apply sort_desc_perm].
    + apply sort_desc_sorted.
  - reflexivity.
Qed.

(** ** The threshold report *)

(** C4, refuted as stated: on the magnitudes 120, 99.9, 100.0, 500 stored in
    that order the document backend reports 120, 100.0, 500, unsorted; and two
    runs of the entry point within one second, of 120 then of 500 billion,
    end on the report 120, 500. *)
Lemma doc_threshold_report_keeps_stored_order :
  doc_threshold_magnitudes stable (doc_snapshot_of 0 [120; 999 # 10; 100; 500])
  = [120; 100; 500]
  /\ match Doc.main stable None 0 (Ok [raw "D" "500,000"])
              (fst (fst (Doc.main stable None 0 (Ok [raw "A" "120,000"]) None))) with
     | (_, _, Some report) => map (fun x => Qred (snd x)) (Doc.high_gdp_df report)
     | (_, _, None) => []
     end = [120; 500].
Proof. split; reflexivity. Qed.

(** C4 (amended). Threshold report, with the threshold 100 of the code: both
    backends report exactly the rows of the latest snapshot with
    [GDP_USD_billion >= 100]. The relational backend returns them sorted
    descending. The document backend returns them in stored order, which is
    descending whenever the stored snapshot is. On 120, 99.9, 100.0, 500 the
    relational backend returns 500, 120, 100.0 and the document backend
    120, 100.0, 500. *)
Theorem threshold_report (pandas sqlite : Sorter) :
  (forall (df : list Doc.DocRow) (report : Doc.Report),
      fst (Doc.run_analysis pandas df) = Ok report ->
      let latest := Doc.latest_df (Doc.latest_time report) df in
      Doc.high_gdp_df report
      = map (fun r : Doc.DocRow => shown r)
            (filter (fun r : Doc.DocRow => Qle_bool 100 (GDP_USD_billion r)) latest)
      /\ (forall r : Doc.DocRow, In r latest -> 100 <= GDP_USD_billion r ->
            In (shown r) (Doc.high_gdp_df report))
      /\ (forall x, In x (Doc.high_gdp_df report) ->
            100 <= snd x /\ exists r : Doc.DocRow, In r latest /\ shown r = x)
      /\ (StronglySorted (descending (fun r : Doc.DocRow => GDP_USD_billion r)) latest ->
            StronglySorted (descending snd) (Doc.high_gdp_df report)))
  /\ (forall (t : Sql.Table) (report : Sql.Report),
      fst (Sql.run_sql_analysis sqlite (Some t)) = Ok report ->
      let latest := filter (Sql.at_time (Sql.latest_time report)) t in
      Permutation (Sql.high_gdp_df report)
        (map (fun r : Sql.DbRow => shown r)
             (filter (fun r : Sql.DbRow => Qle_bool 100 (GDP_USD_billion r)) latest))
      /\ StronglySorted (descending snd) (Sql.high_gdp_df report))
  /\ doc_threshold_magnitudes pandas (doc_snapshot_of 0 [120; 999 # 10; 100; 500])
     = [120; 100; 500]
  /\ sql_threshold_magnitudes sqlite (sql_snapshot_of 0 [120; 999 # 10; 100; 500])
     = [500; 120; 100].
Proof.
  split; [|split; [|split]].
  - intros df report H latest. unfold Doc.run_analysis in H.
    destruct (max_time _) as [t|]; simpl in H; [|discriminate].
    injection H as <-. simpl in *. subst latest. unfold Doc.high_gdp.
    split; [reflexivity|]. split; [|split].
    + intros r Hr Hge. apply in_map_iff. exists r. split; [reflexivity|].
      apply filter_In. split; [exact Hr|]. now apply Qle_bool_iff.
    + intros x Hx. apply in_map_iff in Hx as (r & <- & Hr).
      apply filter_In in Hr as [Hr Hge]. apply Qle_bool_iff in Hge.
      split; [exact Hge|]. now exists r.
    + intros Hs. apply StronglySorted_map. now apply StronglySorted_filter.
  - intros t report H latest. simpl in H. injection H as <-. simpl in *.
    subst latest. unfold Sql.query_100b. split.
    + apply Permutation_map. eapply perm_trans.
      * apply Permutation_sym, sort_desc_perm.
      * rewrite filter_andb. apply Permutation_refl.
    + apply StronglySorted_map. apply sort_desc_sorted.
  - reflexivity.
  - unfold sql_threshold_magnitudes, Sql.run_sql_analysis. simpl fst. cbv iota.
    unfold Sql.high_gdp_df, Sql.query_100b.
    match goal with
    | |- context [sort_desc _ ?k ?l] =>
        set (key := k); remember l as kept eqn:Hk
    end.
    vm_compute in Hk. subst kept.
    match goal with
    | |- context [sort_desc _ _ [?a; ?b; ?c]] =>
        rewrite (sorted_perm_strict_unique key [c; a; b] (sort_desc sqlite key [a; b; c]))
    end.
    + reflexivity.
    + subst key. repeat constructor; simpl; unfold Qlt; simpl; lia.
    + eapply perm_trans; [|apply sort_desc_perm].
      eapply perm_trans; [apply perm_swap|]. apply perm_skip, perm_swap.
    + apply sort_desc_sorted.
Qed.

(** The relational report on the magnitudes 120, 99.9, 100.0, 500. *)
Lemma threshold_report_witness :
  exists report,
    fst (Sql.run_sql_analysis stable (Some (sql_snapshot_of 0 [120; 999 # 10; 100; 500])))
    = Ok report
    /\ StronglySorted (descending snd) (Sql.high_gdp_df report).
Proof.
  eexists. split; [reflexivity|].
  eapply (proj1 (proj2 (threshold_report stable stable))). reflexivity.
Defined.

(** ** The per-group top-5 average *)

Lemma str_eqb_eq (a b : str) : str_eqb a b = true <-> a = b.
Proof.
  unfold str_eqb. destruct (list_eq_dec N.eq_dec a b); split; congruence.
Qed.

Lemma StronglySorted_app_inv {A : Type} (R : A -> A -> Prop) (l1 l2 : list A) :
  StronglySorted R (l1 ++ l2) ->
  forall x y, In x l1 -> In y l2 -> R x y.
Proof.
  induction l1 as [|z l1 IH]; simpl; intros Hs x y Hx Hy; [contradiction|].
  inversion Hs as [|? ? Hs' Hz]; subst. destruct Hx as [<-|Hx].
  - rewrite Forall_forall in Hz. apply Hz. apply in_or_app. now right.
  - now apply IH.
Qed.

(** The first [k] rows of any descending rearrangement are a top-[k]. *)
Lemma firstn_sorted_top (k : nat) (vals s : list Q) :
  Permutation vals s ->
  StronglySorted (descending (fun v => v)) s ->
  top_k_average k vals (mean (firstn k s)).
Proof.
  intros P Hs. exists (firstn k s), (skipn k s). split; [|split; [|split]].
  - rewrite firstn_skipn. now apply Permutation_sym.
  - rewrite length_firstn, (Permutation_length P). reflexivity.
  - intros x y Hx Hy. rewrite <- (firstn_skipn k s) in Hs.
    exact (StronglySorted_app_inv _ _ _ Hs x y Hx Hy).
  - reflexivity.
Qed.

Lemma nlargest_top (k : nat) (vals : list Q) :
  top_k_average k vals (mean (nlargest k vals)).
Proof.
  apply firstn_sorted_top; [apply isort_desc_perm | apply isort_desc_sorted].
Qed.

Lemma ranks_above {A : Type} (l : list A) (start n bound : nat) :
  (bound <= start)%nat ->
  filter (fun rv : nat * A => (fst rv <? bound)%nat) (combine (seq start n) l) = [].
Proof.
  intros Hb. apply filter_none. intros [i x] Hin. simpl.
  apply in_combine_l, in_seq in Hin. apply Nat.ltb_ge. lia.
Qed.

Lemma ranked_firstn {A : Type} (l : list A) (start k : nat) :
  map snd (filter (fun rv : nat * A => (fst rv <? start + k)%nat)
             (combine (seq start (length l)) l))
  = firstn k l.
Proof.
  revert start k. induction l as [|x l IH]; intros start k; simpl.
  - now destruct k.
  - destruct k as [|k].
    + replace (start <? start + 0)%nat with false by (symmetry; apply Nat.ltb_ge; lia).
      now rewrite ranks_above by lia.
    + replace (start <? start + S k)%nat with true by (symmetry; apply Nat.ltb_lt; lia).
      simpl. f_equal. replace (start + S k)%nat with (S start + k)%nat by lia. apply IH.
Qed.

(** [WHERE rank <= 5] keeps the first five rows of a partition. *)
Lemma RankedGDP_top5 (sqlite : Sorter) (g : str) (rows : list Sql.DbRow) :
  map snd (filter (fun rv => (fst rv <=? 5)%nat) (Sql.RankedGDP sqlite g rows))
  = firstn 5
      (sort_desc sqlite (fun v => v)
         (map (fun r : Sql.DbRow => GDP_USD_billion r)
            (filter (fun r : Sql.DbRow => str_eqb (Region r) g) rows))).
Proof.
  unfold Sql.RankedGDP. cbv zeta. rewrite <- (ranked_firstn _ 1 5).
  f_equal.
Qed.

Lemma insert_str_perm (x : str) (l : list str) : Permutation (x :: l) (insert_str x l).
Proof.
  induction l as [|y l IH]; simpl; [apply Permutation_refl|].
  destruct (str_leb x y); [apply Permutation_refl|].
  eapply perm_trans; [apply perm_swap|]. now apply perm_skip.
Qed.

Lemma group_keys_perm (l : list str) :
  Permutation (nodup (list_eq_dec N.eq_dec) l) (group_keys l).
Proof.
  unfold group_keys.
  induction (nodup (list_eq_dec N.eq_dec) l) as [|x u IH]; simpl; [constructor|].
  eapply perm_trans; [apply perm_skip, IH|]. apply insert_str_perm.
Qed.

Lemma group_keys_In (l : list str) (g : str) : In g (group_keys l) <-> In g l.
Proof.
  rewrite <- (nodup_In (list_eq_dec N.eq_dec) l g). split; apply Permutation_in.
  - apply Permutation_sym, group_keys_perm.
  - apply group_keys_perm.
Qed.

Lemma group_keys_NoDup (l : list str) : NoDup (group_keys l).
Proof.
  eapply Permutation_NoDup; [apply group_keys_perm | apply NoDup_nodup].
Qed.

(** A table of one computed value per key, sorted by that value. *)
Lemma sorted_table (srt : Sorter) (keys : list str) (f : str -> Q) :
  let table := sort_desc srt snd (map (fun g => (g, f g)) keys) in
  (forall g a, In (g, a) table <-> In g keys /\ a = f g)
  /\ (forall g, In g (map fst table) <-> In g keys)
  /\ (NoDup keys -> NoDup (map fst table))
  /\ StronglySorted (descending snd) table.
Proof.
  intros table.
  assert (P : Permutation (map (fun g => (g, f g)) keys) table) by apply sort_desc_perm.
  assert (Pk : Permutation keys (map fst table)).
  { apply (Permutation_map fst) in P. rewrite map_map in P. simpl in P.
    now rewrite map_id in P. }
  split; [|split; [|split]].
  - intros g a. split.
    + intros H. apply (Permutation_in _ (Permutation_sym P)) in H.
      apply in_map_iff in H as (g' & [= <- <-] & Hg). now split.
    + intros [Hg ->]. apply (Permutation_in _ P). apply in_map_iff. now exists g.
  - intros g. split; apply Permutation_in; [now apply Permutation_sym | exact Pk].
  - intros Hn. now apply (Permutation_NoDup Pk).
  - apply sort_desc_sorted.
Qed.

Lemma in_map_Region {R : Type} (row : R -> Row) (l : list R) (g : str) :
  In g (map (fun r => Region (row r)) l) <-> exists r, In r l /\ Region (row r) = g.
Proof.
  rewrite in_map_iff. split; intros (r & H1 & H2); exists r; auto.
Qed.

Lemma round_half_away_near (x : Q) :
  - (1 # 2) <= inject_Z (round_half_away x) - x <= 1 # 2.
Proof.
  unfold round_half_away. destruct (Qle_bool 0 x).
  - pose proof (Qfloor_le (x + (1 # 2))) as Hlo.
    pose proof (Qlt_floor (x + (1 # 2))) as Hhi.
    rewrite inject_Z_plus in Hhi. change (inject_Z 1) with 1 in Hhi. split; lra.
  - pose proof (Qfloor_le (- x + (1 # 2))) as Hlo.
    pose proof (Qlt_floor (- x + (1 # 2))) as Hhi.
    rewrite inject_Z_plus in Hhi. change (inject_Z 1) with 1 in Hhi.
    rewrite inject_Z_opp. split; lra.
Qed.

Lemma sqlite_round2_rounded (x : Q) : rounded_to_2_decimals x (sqlite_round2 x).
Proof.
  split.
  - now exists (round_half_away (x * 100)).
  - unfold sqlite_round2, Qdiv. change (/ 100) with (1 # 100).
    apply Qabs_Qle_condition.
    destruct (round_half_away_near (x * 100)). split; lra.
Qed.

(** C3, refuted as stated: for the one group of [sample_raw], holding 1.00,
    1.00 and 1.01, the document backend reports the mean 301/300, which
    rounded to two decimals would be 1. *)
Lemma doc_average_is_not_rounded :
  doc_averages stable (fst (Doc.transform stable None 0 sample_raw)) = [301 # 300]
  /\ Qred (np_round2 (301 # 300)) = 1
  /\ Qred (sqlite_round2 (301 # 300)) = 1.
Proof. repeat split; reflexivity. Qed.

(** C3 (amended). Per-group top-5 average: each backend reports one line per
    group present in the latest snapshot, sorted descending by the value
    reported. The relational backend reports the mean of the five largest
    [GDP_USD_billion] of the group (of all of them when the group has fewer)
    rounded to 2 decimals; the document backend reports that mean itself,
    not rounded. *)
Theorem top5_group_average (pandas sqlite : Sorter) :
  (forall (df : list Doc.DocRow) (report : Doc.Report),
      fst (Doc.run_analysis pandas df) = Ok report ->
      let latest := Doc.latest_df (Doc.latest_time report) df in
      (forall g, In g (map fst (Doc.region_avg report))
                 <-> exists r : Doc.DocRow, In r latest /\ Region r = g)
      /\ NoDup (map fst (Doc.region_avg report))
      /\ (forall g a, In (g, a) (Doc.region_avg report) ->
            top_k_average 5 (Doc.group g latest) a)
      /\ StronglySorted (descending snd) (Doc.region_avg report))
  /\ (forall (t : Sql.Table) (report : Sql.Report),
      fst (Sql.run_sql_analysis sqlite (Some t)) = Ok report ->
      let latest := filter (Sql.at_time (Sql.latest_time report)) t in
      (forall g, In g (map fst (Sql.region_avg_df report))
                 <-> exists r : Sql.DbRow, In r latest /\ Region r = g)
      /\ NoDup (map fst (Sql.region_avg_df report))
      /\ (forall g b, In (g, b) (Sql.region_avg_df report) ->
            exists a,
              top_k_average 5
                (map (fun r : Sql.DbRow => GDP_USD_billion r)
                   (filter (fun r : Sql.DbRow => str_eqb (Region r) g) latest)) a
              /\ b = sqlite_round2 a
              /\ rounded_to_2_decimals a b)
      /\ StronglySorted (descending snd) (Sql.region_avg_df report)).
Proof.
  split.
  - intros df report H latest. unfold Doc.run_analysis in H.
    destruct (max_time _) as [t|]; simpl in H; [|discriminate].
    injection H as <-. simpl in *. subst latest. unfold Doc.region_avg_series.
    set (latest := Doc.latest_df t df).
    set (keys := group_keys (map (fun r : Doc.DocRow => Region r) latest)).
    destruct (sorted_table pandas keys
                (fun g => mean (nlargest 5 (Doc.group g latest))))
      as (Hin & Hkeys & Hnodup & Hsorted).
    split; [|split; [|split]].
    + intros g. rewrite Hkeys. subst keys. rewrite group_keys_In.
      apply (in_map_Region Doc.columns).
    + apply Hnodup, group_keys_NoDup.
    + intros g a Hga. apply Hin in Hga as [_ ->]. apply nlargest_top.
    + exact Hsorted.
  - intros t report H latest. simpl in H. injection H as <-. simpl in *.
    subst latest. unfold Sql.query_top5_avg. cbv zeta.
    set (latest := filter (Sql.at_time _) t).
    set (keys := nodup (list_eq_dec N.eq_dec) (map (fun r : Sql.DbRow => Region r) latest)).
    destruct (sorted_table sqlite keys (fun g => Sql.Average_GDP sqlite g latest))
      as (Hin & Hkeys & Hnodup & Hsorted).
    split; [|split; [|split]].
    + intros g. rewrite Hkeys. subst keys. rewrite nodup_In.
      apply (in_map_Region Sql.fields).
    + apply Hnodup, NoDup_nodup.
    + intros g b Hgb. apply Hin in Hgb as [_ ->].
      unfold Sql.Average_GDP. rewrite RankedGDP_top5.
      eexists. split; [|split; [reflexivity|apply sqlite_round2_rounded]].
      apply firstn_sorted_top; [apply sort_desc_perm | apply sort_desc_sorted].
    + exact Hsorted.
Qed.

(** The document report on the snapshot of [sample_raw]. *)
Lemma top5_group_average_witness :
  exists report,
    fst (Doc.run_analysis stable (fst (Doc.transform stable None 0 sample_raw))) = Ok report
    /\ forall g a, In (g, a) (Doc.region_avg report) ->
         top_k_average 5
           (Doc.group g (Doc.latest_df (Doc.latest_time report)
                           (fst (Doc.transform stable None 0 sample_raw)))) a.
Proof.
  eexists. split; [reflexivity|].
  eapply (proj1 (top5_group_average stable stable)). reflexivity.
Defined.

(** ** Parity of the two backends *)















(** * Further properties *)

(** ** Properties of the extraction *)

Lemma starts_with_spec (p s : str) :
  Page.starts_with p s = true <-> exists b, s = p ++ b.
Proof.
  revert s. induction p as [|x p IH]; intros s; simpl.
  - split; [intros _; now exists s | reflexivity].
  - destruct s as [|y s].
    + split; [discriminate | intros (b & E); discriminate].
    + rewrite andb_true_iff, N.eqb_eq, IH. split.
      * intros (-> & b & ->). now exists b.
      * intros (b & E). injection E as -> ->. split; [reflexivity | now exists b].
Qed.

Lemma contains_spec (p s : str) :
  Page.contains p s = true <-> exists a b, s = a ++ p ++ b.
Proof.
  induction s as [|y s IH]; simpl.
  - rewrite orb_false_r, starts_with_spec. split.
    + intros (b & E). now exists [], b.
    + intros (a & b & E). destruct a; [now exists b|discriminate].
  - rewrite orb_true_iff, starts_with_spec, IH. split.
    + intros [(b & E)|(a & b & E)].
      * now exists [], b.
      * exists (y :: a), b. simpl. now rewrite E.
    + intros (a & b & E). destruct a as [|z a]; simpl in E.
      * left. now exists b.
      * right. injection E as -> ->. now exists a, b.
Qed.

Lemma target_loop_next (tables : list Page.Table) :
  Page.target_loop tables = Page.target_next tables.
Proof.
  unfold Page.target_next. induction tables as [|t tables IH]; simpl; [reflexivity|].
  destruct (Page.contains Page.marker (Page.text t)); [reflexivity | exact IH].
Qed.

Lemma target_loop_first (before after : list Page.Table) (t : Page.Table) :
  (forall u, In u before -> Page.contains Page.marker (Page.text u) = false) ->
  Page.contains Page.marker (Page.text t) = true ->
  Page.target_loop (before ++ t :: after) = Some t.
Proof.
  intros Hb Ht. induction before as [|u before IH]; simpl.
  - now rewrite Ht.
  - rewrite (Hb u (or_introl eq_refl)). apply IH. intros v Hv. apply Hb. now right.
Qed.

Lemma target_loop_none (tables : list Page.Table) :
  (forall u, In u tables -> Page.contains Page.marker (Page.text u) = false) ->
  Page.target_loop tables = None.
Proof.
  induction tables as [|u tables IH]; simpl; intros H; [reflexivity|].
  rewrite (H u (or_introl eq_refl)). apply IH. intros v Hv. apply H. now right.
Qed.

Lemma row_step_data_row (df : list RawRow) (row : Page.Tr) :
  Page.row_step df row = if data_row row then df ++ [raw_of row] else df.
Proof.
  unfold Page.row_step, data_row, raw_of.
  destruct (Page.find_th row), (Page.is_static_header row); simpl; try reflexivity.
  destruct (Page.find_all_td row) as [|c0 [|c1 [|c2 cols]]]; reflexivity.
Qed.

Lemma fold_row_step (rows : list Page.Tr) (df : list RawRow) :
  fold_left Page.row_step rows df = df ++ map raw_of (filter data_row rows).
Proof.
  revert df. induction rows as [|row rows IH]; intros df; simpl.
  - now rewrite app_nil_r.
  - rewrite IH, row_step_data_row. destruct (data_row row); simpl; [|reflexivity].
    now rewrite <- app_assoc.
Qed.

(** X1. [extract] works on the first [wikitable] whose text contains the
    marker: it fails with [ValueError], logging the failure, exactly when no
    table contains it, hands on a request error without logging more, and
    otherwise returns the data rows of that first table and logs their
    number. *)
Theorem extract_uses_first_marked_table (tables : list Page.Table) :
  ((forall t, In t tables -> forall a b, Page.text t <> a ++ Page.marker ++ b)
   <-> DocRun.extract (Ok tables)
       = (Raise ValueError, [Page.Extract_phase_Started; Page.Extract_phase_Failed]))
  /\ (forall before t after a b,
        tables = before ++ t :: after ->
        (forall u, In u before -> forall a b, Page.text u <> a ++ Page.marker ++ b) ->
        Page.text t = a ++ Page.marker ++ b ->
        DocRun.extract (Ok tables)
        = (Ok (map raw_of (filter data_row (Page.find_all_tr t))),
           [Page.Extract_phase_Started;
            Page.Extract_phase_Ended
              (length (map raw_of (filter data_row (Page.find_all_tr t))))]))
  /\ (forall e, DocRun.extract (Raise e) = (Raise e, [Page.Extract_phase_Started])).
Proof.
  assert (Hno : forall u : Page.Table,
             (forall a b, Page.text u <> a ++ Page.marker ++ b)
             <-> Page.contains Page.marker (Page.text u) = false).
  { intros u. rewrite <- not_true_iff_false, contains_spec. split.
    - intros H (a & b & E). exact (H a b E).
    - intros H a b E. apply H. now exists a, b. }
  unfold DocRun.extract, Page.extract_with. split; [split|split].
  - intros H. rewrite target_loop_none; [reflexivity|].
    intros u Hu. apply Hno. now apply H.
  - intros H t Ht. apply Hno.
    induction tables as [|u tables IH]; [contradiction|]. simpl in H.
    destruct (Page.contains Page.marker (Page.text u)) eqn:E; [discriminate|].
    destruct Ht as [<-|Ht]; [exact E | now apply IH].
  - intros before t after a b -> Hb Ht.
    rewrite target_loop_first.
    + unfold Page.rows_loop. rewrite fold_row_step. reflexivity.
    + intros u Hu. apply Hno. now apply Hb.
    + apply contains_spec. now exists a, b.
  - reflexivity.
Qed.

(** X2. The rows [extract] takes from a table are its data rows, in table
    order: a row with a header cell, a row of class [static-row-header] and a
    row with fewer than three cells are never taken; the country is the text
    of the first link of the first cell when there is one, and the value is
    the text of the second cell as it stands. *)
Theorem extract_keeps_data_rows_in_order (rows : list Page.Tr) :
  Page.rows_loop rows = map raw_of (filter data_row rows)
  /\ (length (Page.rows_loop rows) <= length rows)%nat
  /\ (forall r, In r (Page.rows_loop rows) ->
        exists row c0 c1 cols,
          In row rows /\ Page.find_th row = false
          /\ (forall l, Page.get_class row = Some l -> ~ In (py "static-row-header") l)
          /\ Page.find_all_td row = c0 :: c1 :: cols /\ cols <> []
          /\ raw_GDP_USD_million r = Page.get_text c1
          /\ raw_Country r = match Page.find_a c0 with
                             | Some country => country
                             | None => Page.get_text c0
                             end).
Proof.
  assert (E : Page.rows_loop rows = map raw_of (filter data_row rows)).
  { unfold Page.rows_loop. now rewrite fold_row_step. }
  split; [exact E|]. split.
  - rewrite E, length_map. apply filter_length_le.
  - intros r Hr. rewrite E in Hr. apply in_map_iff in Hr as (row & <- & Hrow).
    apply filter_In in Hrow as [Hin Hd]. unfold data_row in Hd.
    apply andb_true_iff in Hd as [Hd H3]. apply andb_true_iff in Hd as [Hth Hst].
    apply negb_true_iff in Hth, Hst. unfold raw_of.
    destruct (Page.find_all_td row) as [|c0 [|c1 [|c2 cols]]] eqn:Etd;
      try discriminate H3.
    exists row, c0, c1, (c2 :: cols). repeat split; auto; try discriminate.
    intros l Hl Hinl. unfold Page.is_static_header in Hst. rewrite Hl in Hst.
    assert (Ht : existsb (str_eqb (py "static-row-header")) l = true).
    { apply existsb_exists. exists (py "static-row-header"). split; [exact Hinl|].
      now apply str_eqb_eq. }
    congruence.
Qed.

(** X3. The two files search the target table differently (a loop left by
    [break], [next] over a generator) and extract the same rows, raise the
    same errors and log the same lines on every page. *)
Theorem extract_same_in_both_files (response : outcome (list Page.Table)) :
  DocRun.extract response = SqlRun.extract response.
Proof.
  unfold DocRun.extract, SqlRun.extract, Page.extract_with.
  destruct response as [tables|e]; [|reflexivity].
  now rewrite target_loop_next.
Qed.

(** ** Properties of the cleaning and the coercion *)

Lemma re_sub_no_open (pre rest : str) :
  Forall (fun x => is_open x = false) pre ->
  re_sub 0 (pre ++ rest) = pre ++ re_sub 0 rest.
Proof.
  induction 1 as [|x pre Hx _ IH]; simpl; [reflexivity|].
  now rewrite Hx, IH.
Qed.

Lemma aside_len_no_close (s : str) :
  Forall (fun x => is_close x = false) s -> aside_len s = None.
Proof.
  induction 1 as [|x s Hx _ IH]; simpl; [reflexivity|].
  rewrite Hx, IH. now destruct (is_newline x).
Qed.

Lemma re_sub_no_close (s : str) :
  Forall (fun x => is_close x = false) s -> re_sub 0 s = s.
Proof.
  induction 1 as [|x s Hx Hs IH]; simpl; [reflexivity|].
  rewrite (aside_len_no_close s Hs), IH. now destruct (is_open x).
Qed.

Lemma lstrip_In (s : str) (c : char) :
  In c s -> is_space c = false -> In c (lstrip s).
Proof.
  induction s as [|x s IH]; simpl; intros Hin Hc; [contradiction|].
  destruct (is_space x) eqn:Ex; [|exact Hin].
  destruct Hin as [->|Hin]; [congruence | now apply IH].
Qed.

Lemma strip_In (s : str) (c : char) :
  In c s -> is_space c = false -> In c (strip s).
Proof.
  intros Hin Hc. unfold strip, rstrip. apply in_rev. rewrite rev_involutive.
  apply lstrip_In; [|exact Hc]. apply in_rev. rewrite rev_involutive.
  now apply lstrip_In.
Qed.

Lemma clean_value_keeps (s : str) (c : char) :
  In c (re_sub_aside s) -> is_space c = false -> (c =? 44)%N = false ->
  In c (clean_value s).
Proof.
  intros Hin Hs Hc. unfold clean_value, remove_commas. apply filter_In. split.
  - now apply strip_In.
  - now rewrite Hc.
Qed.

Lemma lstrip_spaces (w s : str) :
  Forall (fun x => is_space x = true) w -> lstrip (w ++ s) = lstrip s.
Proof.
  induction 1 as [|x w Hx _ IH]; simpl; [reflexivity|]. now rewrite Hx.
Qed.

Lemma lstrip_no_space (s : str) :
  Forall (fun x => is_space x = false) s -> lstrip s = s.
Proof.
  destruct 1 as [|x s Hx _]; simpl; [reflexivity|]. now rewrite Hx.
Qed.

Lemma strip_trailing_spaces (s w : str) :
  Forall (fun x => is_space x = false) s ->
  Forall (fun x => is_space x = true) w ->
  strip (s ++ w) = s.
Proof.
  intros Hs Hw. unfold strip, rstrip.
  assert (Ew : lstrip w = []).
  { rewrite <- (app_nil_r w). now rewrite lstrip_spaces. }
  destruct s as [|x s]; simpl app.
  - now rewrite Ew.
  - assert (E : lstrip (x :: s ++ w) = x :: s ++ w).
    { simpl. inversion Hs as [|? ? Hx _]; subst. now rewrite Hx. }
    rewrite E.
    change (x :: s ++ w) with ((x :: s) ++ w).
    rewrite rev_app_distr, lstrip_spaces by (now apply Forall_rev).
    rewrite lstrip_no_space by (now apply Forall_rev). apply rev_involutive.
Qed.

Lemma digit_is_digit (c : char) : digit c = None <-> is_digit c = false.
Proof.
  unfold digit, is_digit. destruct ((48 <=? c) && (c <=? 57))%N; split; congruence.
Qed.

Lemma is_digit_numeric (c : char) : is_digit c = true -> numeric_char c = true.
Proof. intros H. unfold numeric_char. now rewrite H. Qed.

Lemma digits_split (acc : Z) (n : nat) (s : str) :
  exists ds, s = ds ++ snd (digits acc n s) /\ Forall (fun x => is_digit x = true) ds.
Proof.
  revert acc n. induction s as [|c s IH]; intros acc n; simpl.
  - now exists [].
  - destruct (digit c) as [d|] eqn:E.
    + destruct (IH (10 * acc + d)%Z (S n)) as (ds & Es & Hd).
      exists (c :: ds). split; [simpl; f_equal; exact Es|].
      constructor; [|exact Hd].
      destruct (is_digit c) eqn:Ec; [reflexivity|].
      apply digit_is_digit in Ec. congruence.
    + now exists [].
Qed.

Lemma skip_spaces_split (s : str) :
  exists ws, s = ws ++ skip_spaces s /\ Forall (fun x => numeric_char x = true) ws.
Proof.
  induction s as [|c s (ws & Es & Hw)]; simpl.
  - now exists [].
  - destruct (is_space_ascii c) eqn:E.
    + exists (c :: ws). split; [simpl; f_equal; exact Es|].
      constructor; [|exact Hw]. unfold numeric_char. rewrite E.
      now rewrite orb_true_r.
    + now exists [].
Qed.

Lemma sign_split (s : str) :
  exists pre, s = pre ++ snd (sign s) /\ Forall (fun x => numeric_char x = true) pre.
Proof.
  unfold sign. destruct s as [|c s]; [now exists []|].
  destruct (N.eq_dec c 45) as [->|H45]; [exists [45%N]; split; [reflexivity|now repeat constructor]|].
  destruct (N.eq_dec c 43) as [->|H43]; [exists [43%N]; split; [reflexivity|now repeat constructor]|].
  exists []. split; [|constructor]. simpl.
  destruct c as [|p]; [reflexivity|].
  do 6 (destruct p as [p|p|]; try reflexivity); congruence.
Qed.

Lemma exponent_split (s r : str) (e : Z) :
  exponent s = Some (e, r) ->
  exists pre, s = pre ++ r /\ Forall (fun x => numeric_char x = true) pre.
Proof.
  unfold exponent. destruct s as [|c s]; [intros [= <- <-]; now exists []|].
  destruct ((c =? 101) || (c =? 69))%N eqn:Ec.
  - destruct (sign_split s) as (pre & Es & Hpre).
    destruct (sign s) as [sg s1]. simpl in Es.
    destruct (digits_split 0 0 s1) as (ds & Ed & Hds).
    destruct (digits 0 0 s1) as [[v ne] s2]. simpl in Ed.
    destruct ne; [discriminate|]. intros [= <- <-].
    exists (c :: pre ++ ds). split.
    + simpl. f_equal. rewrite <- app_assoc, <- Ed. exact Es.
    + constructor.
      * unfold numeric_char. apply orb_true_iff in Ec as [E|E]; rewrite E;
          now rewrite ?orb_true_r.
      * apply Forall_app. split; [exact Hpre|].
        eapply Forall_impl; [|exact Hds]. apply is_digit_numeric.
  - intros [= <- <-]. now exists [].
Qed.

(** A text [to_numeric] reads is made of digits, signs, a point, an exponent
    letter and blanks only. *)
Lemma to_numeric_alphabet (s : str) (q : Q) :
  to_numeric s = Some q -> Forall (fun x => numeric_char x = true) s.
Proof.
  unfold to_numeric.
  destruct (skip_spaces_split s) as (ws & Es & Hws).
  destruct (sign_split (skip_spaces s)) as (pre & Esg & Hpre).
  destruct (sign (skip_spaces s)) as [sg s1]. simpl in Esg.
  destruct (digits_split 0 0 s1) as (ds & Ed & Hds).
  destruct (digits 0 0 s1) as [[i ni] s2]. simpl in Ed.
  assert (Hfrac : forall m nf s3,
             match s2 with
             | 46%N :: s2' => digits i 0 s2'
             | _ => (i, 0%nat, s2)
             end = (m, nf, s3) ->
             exists fr, s2 = fr ++ s3 /\ Forall (fun x => numeric_char x = true) fr).
  { intros m nf s3 H.
    destruct s2 as [|c s2']; [injection H as _ _ <-; now exists []|].
    destruct (N.eq_dec c 46) as [->|Hc].
    - destruct (digits_split i 0 s2') as (fr & Ef & Hf). rewrite H in Ef. simpl in Ef.
      exists (46%N :: fr). split; [simpl; now f_equal|].
      constructor; [reflexivity|]. eapply Forall_impl; [|exact Hf]. apply is_digit_numeric.
    - exists []. split; [|constructor]. simpl.
      destruct c as [|p]; [now injection H as _ _ <-|].
      do 6 (destruct p as [p|p|]; try (now injection H as _ _ <-)); congruence. }
  destruct (match s2 with
            | 46%N :: s2' => digits i 0 s2'
            | _ => (i, 0%nat, s2)
            end) as [[m nf] s3] eqn:Em.
  destruct (Hfrac m nf s3 eq_refl) as (fr & Ef & Hfr).
  destruct (ni + nf)%nat; [discriminate|].
  destruct (exponent s3) as [[e s4]|] eqn:Ee; [|discriminate].
  destruct (exponent_split s3 s4 e Ee) as (ex & Eex & Hex).
  destruct (skip_spaces_split s4) as (ws' & Es4 & Hws').
  destruct (skip_spaces s4); [|discriminate]. intros _.
  rewrite Es, Esg, Ed, Ef, Eex, Es4, app_nil_r.
  repeat (apply Forall_app; split); try assumption.
  eapply Forall_impl; [|exact Hds]. apply is_digit_numeric.
Qed.

Lemma digits_all (ds : str) (acc : Z) (n : nat) :
  Forall (fun x => is_digit x = true) ds ->
  digits acc n ds
  = (fold_left (fun a c => (10 * a + (Z.of_N c - 48))%Z) ds acc, (n + length ds)%nat, []).
Proof.
  intros H. revert acc n. induction H as [|c ds Hc _ IH]; intros acc n; simpl.
  - now rewrite Nat.add_0_r.
  - unfold digit. unfold is_digit in Hc. rewrite Hc, IH. do 2 f_equal. lia.
Qed.

(** A non-empty string of digits is read as the number it writes. *)
Lemma to_numeric_digits (ds : str) :
  ds <> [] -> Forall (fun x => is_digit x = true) ds ->
  exists q, to_numeric ds = Some q /\ q == inject_Z (number ds).
Proof.
  intros Hne Hd. destruct ds as [|c ds]; [congruence|].
  assert (Hc : is_digit c = true) by now inversion Hd.
  assert (Hsp : is_space_ascii c = false).
  { unfold is_digit in Hc. unfold is_space_ascii.
    apply andb_true_iff in Hc as [H1 H2]. apply N.leb_le in H1.
    destruct (N.eqb_spec c 32); [lia|]. simpl.
    apply andb_false_iff. right. apply N.leb_gt. lia. }
  assert (Hsign : sign (c :: ds) = (1%Z, c :: ds)).
  { unfold is_digit in Hc. apply andb_true_iff in Hc as [H1 H2].
    apply N.leb_le in H1. unfold sign.
    destruct c as [|p]; [lia|].
    do 6 (destruct p as [p|p|]; try reflexivity); lia. }
  unfold to_numeric. simpl skip_spaces. rewrite Hsp, Hsign, (digits_all (c :: ds) 0 0 Hd).
  simpl length. simpl plus. cbv iota beta. simpl exponent. cbv iota beta. simpl skip_spaces.
  cbv iota. eexists. split; [reflexivity|].
  unfold number. simpl Z.of_nat. change (0 - 0)%Z with 0%Z.
  change (10 ^ 0) with 1. rewrite Qmult_1_r, Z.mul_1_l. reflexivity.
Qed.

Ltac char_classes :=
  unfold junk, numeric_char, is_digit, is_space, is_space_ascii, is_open, is_close,
    is_newline, plain_char in *;
  repeat match goal with
         | H : negb _ = true |- _ => apply negb_true_iff in H
         | H : negb _ = false |- _ => apply negb_false_iff in H
         | |- negb _ = true => apply negb_true_iff
         | |- negb _ = false => apply negb_false_iff
         end;
  rewrite ?orb_true_iff, ?andb_true_iff, ?orb_false_iff, ?andb_false_iff,
    ?N.leb_le, ?N.leb_gt, ?N.eqb_eq, ?N.eqb_neq in *;
  try lia.

Lemma digit_or_comma_no_space (x : char) :
  is_digit x = true \/ x = 44%N -> is_space x = false.
Proof. intros H. char_classes. Qed.

Lemma digit_or_comma_no_open (x : char) :
  is_digit x = true \/ x = 44%N -> is_open x = false.
Proof. intros H. char_classes. Qed.

Lemma space_no_open (x : char) : is_space x = true -> is_open x = false.
Proof. intros H. char_classes. Qed.


Lemma remove_commas_digits (s : str) :
  Forall (fun x => is_digit x = true \/ x = 44%N) s ->
  Forall (fun x => is_digit x = true) (remove_commas s).
Proof.
  intros H. apply Forall_forall. intros x Hx. apply filter_In in Hx as [Hx Hc].
  rewrite Forall_forall in H. destruct (H x Hx) as [Hd| ->]; [exact Hd | discriminate].
Qed.

(** A cell whose cleaned text holds a character that is not of a number
    fails the coercion. *)
Lemma non_numeric_char (r : RawRow) (c : char) :
  In c (clean_value (raw_GDP_USD_million r)) -> numeric_char c = false ->
  non_numeric r = true.
Proof.
  intros Hin Hc. unfold non_numeric.
  destruct (to_numeric _) as [q|] eqn:E; [|reflexivity].
  apply to_numeric_alphabet in E. rewrite Forall_forall in E. apply E in Hin. congruence.
Qed.

(** A row that fails the coercion leaves no trace in what is kept. *)
Lemma non_numeric_dropped (r : RawRow) (df : list RawRow) :
  non_numeric r = true -> dropna (coerce (r :: df)) = dropna (coerce df).
Proof.
  unfold non_numeric. simpl. now destruct (to_numeric _).
Qed.

(** X4. Digits grouped by commas and followed by a bracketed annotation are
    read as the number the digits write: the cleaned text is the digits
    alone, whatever the annotation says and whatever blanks stand before
    it. *)
Theorem grouped_digits_with_annotation
    (s ws body : str) (o c : char)
    (Hs : Forall (fun x => is_digit x = true \/ x = 44%N) s)
    (Hdigit : Exists (fun x => is_digit x = true) s)
    (Hws : Forall (fun x => is_space x = true) ws)
    (Ho : is_open o = true) (Hbody : Forall plain_char body) (Hc : is_close c = true) :
  clean_value (s ++ ws ++ o :: body ++ [c]) = remove_commas s
  /\ exists q,
       to_numeric (clean_value (s ++ ws ++ o :: body ++ [c])) = Some q
       /\ q == inject_Z (number (remove_commas s)).
Proof.
  assert (E : clean_value (s ++ ws ++ o :: body ++ [c]) = remove_commas s).
  { unfold clean_value, re_sub_aside. rewrite app_assoc, re_sub_no_open.
    - simpl re_sub. rewrite Ho, (aside_len_plain body c [] Hbody Hc), re_sub_cut.
      simpl. rewrite app_nil_r, strip_trailing_spaces; [reflexivity| |exact Hws].
      eapply Forall_impl; [|exact Hs]. apply digit_or_comma_no_space.
    - apply Forall_app. split.
      + eapply Forall_impl; [|exact Hs]. apply digit_or_comma_no_open.
      + eapply Forall_impl; [|exact Hws]. apply space_no_open. }
  split; [exact E|]. rewrite E. apply to_numeric_digits.
  - apply Exists_exists in Hdigit as (x & Hx & Hd). intros Hnil.
    assert (Hin : In x (remove_commas s)).
    { apply filter_In. split; [exact Hx|]. revert Hd. clear. intros Hd.
      apply negb_true_iff. char_classes. }
    rewrite Hnil in Hin. exact Hin.
  - now apply remove_commas_digits.
Qed.

(** The value ["18,080  [n 1]"]. *)
Lemma grouped_digits_with_annotation_witness :
  clean_value (py "18,080" ++ py "  " ++ 91%N :: py "n 1" ++ [93%N]) = py "18080"
  /\ exists q,
       to_numeric (clean_value (py "18,080" ++ py "  " ++ 91%N :: py "n 1" ++ [93%N]))
       = Some q
       /\ q == inject_Z (number (py "18080")).
Proof.
  apply (grouped_digits_with_annotation (py "18,080") (py "  ") (py "n 1") 91%N 93%N).
  - repeat constructor; (left; reflexivity) || (right; reflexivity).
  - apply Exists_cons_hd. reflexivity.
  - repeat constructor.
  - reflexivity.
  - repeat constructor.
  - reflexivity.
Defined.




(** X7. A value with an opening bracket and no closing bracket is left as it
    is by the regex, so its row fails the coercion and is dropped by both
    [transform]s. *)
Theorem unclosed_bracket_drops_row
    (r : RawRow) (o : char)
    (Hin : In o (raw_GDP_USD_million r)) (Ho : is_open o = true)
    (Hclose : Forall (fun x => is_close x = false) (raw_GDP_USD_million r)) :
  re_sub_aside (raw_GDP_USD_million r) = raw_GDP_USD_million r
  /\ non_numeric r = true
  /\ forall pandas region_map now df,
       fst (Doc.transform pandas region_map now (r :: df))
       = fst (Doc.transform pandas region_map now df)
       /\ fst (Sql.transform region_map now (r :: df))
          = fst (Sql.transform region_map now df).
Proof.
  assert (E : re_sub_aside (raw_GDP_USD_million r) = raw_GDP_USD_million r)
    by now apply re_sub_no_close.
  assert (Hr : non_numeric r = true).
  { apply (non_numeric_char r o).
    - apply clean_value_keeps; [now rewrite E| |]; revert Ho; clear; intros Ho; char_classes.
    - revert Ho. clear. intros Ho. char_classes. }
  split; [exact E|]. split; [exact Hr|]. intros pandas region_map now df.
  unfold Doc.transform, Sql.transform. cbv zeta.
  rewrite (non_numeric_dropped r df Hr). split; reflexivity.
Qed.

(** The value ["18,080 (2024"]. *)
Lemma unclosed_bracket_witness : non_numeric (raw "A" "18,080 (2024") = true.
Proof.
  refine (proj1 (proj2 (unclosed_bracket_drops_row (raw "A" "18,080 (2024") 40%N _ _ _))).
  - simpl. auto 10.
  - reflexivity.
  - repeat constructor.
Defined.

(** ** Properties of the snapshot a run builds *)

Lemma doc_transform_rows (pandas : Sorter) (region_map : option (str -> option str))
    (now : Z) (df : list RawRow) :
  Permutation (map (Doc.classified region_map now) (dropna (coerce df)))
    (fst (Doc.transform pandas region_map now df)).
Proof. apply sort_desc_perm. Qed.

Lemma doc_transform_stamp (pandas : Sorter) (region_map : option (str -> option str))
    (now : Z) (df : list RawRow) (r : Doc.DocRow) :
  In r (fst (Doc.transform pandas region_map now df)) -> Processed_Time r = now.
Proof.
  intros Hr. apply (Permutation_in _ (Permutation_sym (doc_transform_rows _ _ _ _))) in Hr.
  now apply in_map_iff in Hr as (cm & <- & _).
Qed.

(** X8. One snapshot, one timestamp: every row a [transform] returns carries
    the processing time of the run, whatever the input. *)
Theorem snapshot_rows_share_the_timestamp
    (pandas : Sorter) (region_map : option (str -> option str)) (now : Z)
    (df : list RawRow) :
  Forall (fun r : Doc.DocRow => Processed_Time r = now)
    (fst (Doc.transform pandas region_map now df))
  /\ Forall (fun r : Row => Processed_Time r = now)
       (fst (Sql.transform region_map now df)).
Proof.
  split; apply Forall_forall; intros r Hr.
  - exact (doc_transform_stamp _ _ _ _ r Hr).
  - simpl in Hr. now apply in_map_iff in Hr as (cm & <- & _).
Qed.


(** ** Properties of the relational store *)

Lemma fold_max_app (l : list Z) (x : Z) :
  fold_right Z.max 0%Z (l ++ [x]) = Z.max (fold_right Z.max 0%Z l) (Z.max x 0).
Proof.
  induction l as [|y l IH]; simpl; [lia|]. rewrite IH. lia.
Qed.

Lemma fold_max_nonneg (l : list Z) : (0 <= fold_right Z.max 0 l)%Z.
Proof. induction l as [|y l IH]; simpl; lia. Qed.


Lemma next_id_insert (t : Sql.Table) (r : Row) :
  Sql.next_id (Sql.insert t r) = (Sql.next_id t + 1)%Z.
Proof.
  unfold Sql.next_id, Sql.insert. rewrite map_app. simpl map. rewrite fold_max_app.
  pose proof (fold_max_nonneg (map Sql.id t)).
  unfold Sql.next_id. simpl Sql.id. lia.
Qed.

Lemma fold_insert_spec (df : list Row) (t : Sql.Table) :
  exists new,
    fold_left Sql.insert df t = t ++ new
    /\ map Sql.fields new = df
    /\ map Sql.id new
       = map (fun k => (Sql.next_id t + Z.of_nat k)%Z) (seq 0 (length df)).
Proof.
  revert t. induction df as [|r df IH]; intros t; simpl.
  - exists []. now rewrite app_nil_r.
  - destruct (IH (Sql.insert t r)) as (new & E & F & I).
    exists ({| Sql.id := Sql.next_id t; Sql.fields := r |} :: new). split; [|split].
    + rewrite E. unfold Sql.insert. now rewrite <- app_assoc.
    + simpl. now rewrite F.
    + simpl. rewrite I, next_id_insert, <- seq_shift, map_map. f_equal; [f_equal; lia|].
      apply map_ext. intros k. lia.
Qed.


(** ** Properties of the two reports *)

Lemma max_time_fresh {R : Type} (stamp : R -> Z) (old rows : list R) (now : Z) :
  (forall r, In r old -> (stamp r < now)%Z) ->
  (forall r, In r rows -> stamp r = now) ->
  rows <> [] ->
  max_time (map stamp (old ++ rows)) = Some now.
Proof.
  intros Hold Hrows Hne. apply max_time_spec. split.
  - destruct rows as [|r rows]; [congruence|]. apply in_map_iff. exists r. split.
    + apply Hrows. now left.
    + apply in_or_app. right. now left.
  - apply Forall_forall. intros t Ht. apply in_map_iff in Ht as (r & <- & Hr).
    apply in_app_or in Hr as [Hr|Hr].
    + apply Hold in Hr. lia.
    + rewrite (Hrows r Hr). lia.
Qed.


Lemma last_of_log (a b c : list Msg) (x d : Msg) :
  last ([ETL_Process_Started] ++ a ++ b ++ c ++ [x]) d = x.
Proof. rewrite !app_assoc. apply last_last. Qed.





Lemma filter_fields (f : Row -> bool) (t : Sql.Table) :
  map Sql.fields (filter (fun r : Sql.DbRow => f r) t) = filter f (map Sql.fields t).
Proof. now rewrite filter_map_swap. Qed.

Lemma filter_columns (f : Row -> bool) (df : list Doc.DocRow) :
  map Doc.columns (filter (fun r : Doc.DocRow => f r) df) = filter f (map Doc.columns df).
Proof. now rewrite filter_map_swap. Qed.

Lemma sql_query_100b_rows (sqlite : Sorter) (t : Sql.Table) (now : Z) :
  Permutation (Sql.query_100b sqlite (Some now) t)
    (map shown
       (filter (fun r : Row => Qle_bool 100 (GDP_USD_billion r))
          (filter (fun r : Row => (Processed_Time r =? now)%Z) (map Sql.fields t)))).
Proof.
  unfold Sql.query_100b.
  eapply perm_trans;
    [apply Permutation_map, Permutation_sym, sort_desc_perm|].
  rewrite (filter_andb (fun r : Sql.DbRow => Qle_bool 100 (GDP_USD_billion r))
             (Sql.at_time (Some now)) t).
  rewrite <- (filter_fields (fun r => (Processed_Time r =? now)%Z) t).
  rewrite <- (filter_fields (fun r => Qle_bool 100 (GDP_USD_billion r))).
  rewrite map_map. apply Permutation_refl.
Qed.

(** X12. The two threshold tables agree: when both stores hold the same rows
    in the same order, the relational table is a rearrangement of the
    document table, so both list the same rows the same number of times. *)
Theorem threshold_tables_agree
    (pandas sqlite : Sorter) (hist : list Doc.DocRow) (table : Sql.Table)
    (rd : Doc.Report) (rs : Sql.Report)
    (Hsame : map Doc.columns hist = map Sql.fields table)
    (Hd : fst (Doc.run_analysis pandas hist) = Ok rd)
    (Hs : fst (Sql.run_sql_analysis sqlite (Some table)) = Ok rs) :
  Permutation (Doc.high_gdp_df rd) (Sql.high_gdp_df rs)
  /\ length (Doc.high_gdp_df rd) = length (Sql.high_gdp_df rs).
Proof.
  assert (P : Permutation (Doc.high_gdp_df rd) (Sql.high_gdp_df rs)).
  { unfold Doc.run_analysis in Hd.
    destruct (max_time (map (fun r : Doc.DocRow => Processed_Time r) hist)) as [t|] eqn:Emax;
      simpl in Hd; [|discriminate].
    injection Hd as <-. simpl in Hs. injection Hs as <-. simpl.
    assert (Etime : map (fun r : Sql.DbRow => Processed_Time r) table
                    = map (fun r : Doc.DocRow => Processed_Time r) hist).
    { transitivity (map Processed_Time (map Sql.fields table)); [now rewrite map_map|].
      now rewrite <- Hsame, map_map. }
    rewrite Etime, Emax. apply Permutation_sym.
    eapply perm_trans; [apply sql_query_100b_rows|].
    rewrite <- Hsame. unfold Doc.high_gdp, Doc.latest_df.
    rewrite <- (filter_columns (fun r => (Processed_Time r =? t)%Z) hist).
    rewrite <- (filter_columns (fun r => Qle_bool 100 (GDP_USD_billion r))).
    rewrite map_map. apply Permutation_refl. }
  split; [exact P | now apply Permutation_length].
Qed.

(** The snapshot of [sample_page] in both stores. *)
Lemma threshold_tables_agree_witness :
  exists rd rs,
    fst (Doc.run_analysis stable (doc_snapshot_of 0 [120; 999 # 10; 100; 500])) = Ok rd
    /\ fst (Sql.run_sql_analysis stable (Some (sql_snapshot_of 0 [120; 999 # 10; 100; 500])))
       = Ok rs
    /\ Permutation (Doc.high_gdp_df rd) (Sql.high_gdp_df rs).
Proof.
  eexists. eexists. split; [reflexivity|]. split; [reflexivity|].
  eapply (proj1 (threshold_tables_agree stable stable
                   (doc_snapshot_of 0 [120; 999 # 10; 100; 500])
                   (sql_snapshot_of 0 [120; 999 # 10; 100; 500]) _ _ _ _ _)).
  Unshelve. all: reflexivity.
Defined.

Lemma sql_transform_stamp (region_map : option (str -> option str)) (now : Z)
    (df : list RawRow) (r : Row) :
  In r (fst (Sql.transform region_map now df)) -> Processed_Time r = now.
Proof.
  simpl. intros Hr. now apply in_map_iff in Hr as (cm & <- & _).
Qed.

Lemma sql_latest_of_fresh_rows (t new : Sql.Table) (now : Z) :
  (forall r : Sql.DbRow, In r t -> (Processed_Time r < now)%Z) ->
  (forall r : Sql.DbRow, In r new -> Processed_Time r = now) ->
  filter (Sql.at_time (Some now)) (t ++ new) = new.
Proof.
  intros Hold Hnew. rewrite filter_app, (filter_none _ t), (filter_all _ new); auto.
  - intros r Hr. simpl. apply Z.eqb_eq. now apply Hnew.
  - intros r Hr. simpl. apply Z.eqb_neq. apply Hold in Hr. lia.
Qed.

(** X13. A run of the relational pipeline on a table older than the run: the
    old rows stay, the new snapshot is inserted after them, the analysis
    takes the time of the run as its reference time, the threshold table
    holds exactly the new rows of at least 100, in descending order, the
    averages are those of the regions of the new rows, and the run ends by
    logging its success. *)
Theorem sql_run_reports_its_own_snapshot
    (sqlite : Sorter) (region_map : option (str -> option str)) (now : Z)
    (raw_data : list RawRow) (db : option Sql.Table)
    (Hold : forall r : Sql.DbRow, In r (table_rows db) -> (Processed_Time r < now)%Z)
    (Hkept : fst (Sql.transform region_map now raw_data) <> []) :
  let rows := fst (Sql.transform region_map now raw_data) in
  exists new log report,
    Sql.main sqlite region_map now (Ok raw_data) db
    = (Some (table_rows db ++ new), log, Some report)
    /\ map Sql.fields new = rows
    /\ Sql.latest_time report = Some now
    /\ Permutation (Sql.high_gdp_df report)
         (map shown (filter (fun r : Row => Qle_bool 100 (GDP_USD_billion r)) rows))
    /\ StronglySorted (descending snd) (Sql.high_gdp_df report)
    /\ (forall g, In g (map fst (Sql.region_avg_df report))
                  <-> exists r, In r rows /\ Region r = g)
    /\ last log ETL_Process_Started = ETL_Process_Completed_Successfully.
Proof.
  intros rows.
  destruct raw_data as [|r0 raw_data]; [now elim Hkept|].
  assert (Hstamp : forall r, In r rows -> Processed_Time r = now)
    by (intros r; apply sql_transform_stamp).
  unfold Sql.main. subst rows.
  destruct (Sql.transform region_map now (r0 :: raw_data)) as [rows log_t].
  simpl fst in *. unfold Sql.load_to_db. fold (table_rows db).
  set (t := table_rows db) in *. cbv zeta.
  destruct (fold_insert_spec rows t) as (new & E & F & _). rewrite E.
  assert (Hnew : forall r : Sql.DbRow, In r new -> Processed_Time r = now).
  { intros r Hr. apply Hstamp. rewrite <- F. now apply in_map. }
  assert (Hne : new <> []) by (intros ->; now apply Hkept).
  assert (Hlatest : filter (Sql.at_time (Some now)) (t ++ new) = new)
    by now apply sql_latest_of_fresh_rows.
  unfold Sql.run_sql_analysis.
  rewrite (max_time_fresh (fun r : Sql.DbRow => Processed_Time r) t new now Hold Hnew Hne).
  cbv zeta.
  exists new. eexists. eexists. split; [reflexivity|].
  cbn [Sql.latest_time Sql.high_gdp_df Sql.region_avg_df].
  split; [exact F|]. split; [reflexivity|]. split; [|split; [|split]].
  - eapply perm_trans; [apply sql_query_100b_rows|].
    rewrite <- (filter_fields (fun r => (Processed_Time r =? now)%Z) (t ++ new)).
    change (fun r : Sql.DbRow => (Processed_Time r =? now)%Z) with (Sql.at_time (Some now)).
    rewrite Hlatest, F. apply Permutation_refl.
  - unfold Sql.query_100b.
    apply (StronglySorted_map (descending snd)
             (fun r : Sql.DbRow => (Country r, Region r, GDP_USD_billion r))).
    apply (sort_desc_sorted sqlite).
  - intros g. unfold Sql.query_top5_avg. cbv zeta. rewrite Hlatest.
    destruct (sorted_table sqlite
                (nodup (list_eq_dec N.eq_dec) (map (fun r : Sql.DbRow => Region r) new))
                (fun g => Sql.Average_GDP sqlite g new)) as (_ & Hg & _).
    cbv zeta in Hg. rewrite Hg, nodup_In, (in_map_Region Sql.fields new g). rewrite <- F.
    split.
    + intros (r & Hr & <-). exists (Sql.fields r). split; [now apply in_map|reflexivity].
    + intros (r & Hr & <-). apply in_map_iff in Hr as (d & <- & Hd). now exists d.
  - apply last_of_log.
Qed.

(** A first run over [sample_raw]: the table does not exist yet. *)
Lemma sql_run_reports_its_own_snapshot_witness :
  exists new log report,
    Sql.main stable None 7 (Ok sample_raw) None = (Some new, log, Some report)
    /\ Sql.latest_time report = Some 7%Z.
Proof.
  destruct (sql_run_reports_its_own_snapshot stable None 7 sample_raw None)
    as (new & log & report & E & _ & T & _).
  - intros r [].
  - discriminate.
  - now exists new, log, report.
Defined.

(** ** Properties of a whole run *)






(** X15. A run whose extraction raises, because the request failed or because
    no table carries the marker, leaves the file and the database as they
    were, prints no report and logs the exception as the failure of the run,
    after which nothing more is logged. *)
Theorem failed_extraction_changes_nothing
    (pandas sqlite : Sorter) (region_map : option (str -> option str)) (now : Z)
    (response : outcome (list Page.Table))
    (path : option Doc.File) (db : option Sql.Table) (e : exn)
    (He : fst (DocRun.extract response) = Raise e) :
  exists log_e,
    DocRun.run pandas region_map now response path
    = (path,
       Page.By_run ETL_Process_Started :: map Page.By_extract log_e
       ++ [Page.By_run (ETL_Process_Failed e)], None)
    /\ SqlRun.run sqlite region_map now response db
       = (db,
          Page.By_run ETL_Process_Started :: map Page.By_extract log_e
          ++ [Page.By_run (ETL_Process_Failed e)], None)
    /\ (log_e = [Page.Extract_phase_Started] /\ response = Raise e
        \/ log_e = [Page.Extract_phase_Started; Page.Extract_phase_Failed]
           /\ e = ValueError).
Proof.
  unfold DocRun.run, SqlRun.run, DocRun.extract, SqlRun.extract, Page.extract_with in *.
  destruct response as [tables|e'].
  - rewrite <- target_loop_next.
    destruct (Page.target_loop tables) as [t|]; simpl in He; [discriminate|].
    injection He as <-. eexists. split; [reflexivity|]. split; [reflexivity|].
    right. now split.
  - simpl in He. injection He as ->. eexists. split; [reflexivity|]. split; [reflexivity|].
    left. now split.
Qed.

(** The request fails. *)
Lemma failed_extraction_changes_nothing_witness :
  exists log,
    DocRun.run stable None 7 (Raise HTTPError) None = (None, log, None)
    /\ SqlRun.run stable None 7 (Raise HTTPError) None = (None, log, None).
Proof.
  destruct (failed_extraction_changes_nothing stable stable None 7 (Raise HTTPError)
              None None HTTPError eq_refl) as (log_e & Hd & Hs & _).
  eexists. split; [exact Hd | exact Hs].
Defined.

Lemma max_time_nonempty (l : list Z) : l <> [] -> exists t, max_time l = Some t.
Proof.
  destruct l as [|x l]; [congruence|]. intros _. simpl. eexists. reflexivity.
Qed.


(** ** Properties of the averages *)

Lemma Qsum_bounds (lo hi : Q) (l : list Q) :
  (forall x, In x l -> lo <= x <= hi) ->
  inject_Z (Z.of_nat (length l)) * lo <= Qsum l
  /\ Qsum l <= inject_Z (Z.of_nat (length l)) * hi.
Proof.
  induction l as [|x l IH]; intros H.
  - change (inject_Z (Z.of_nat (length (@nil Q)))) with 0.
    change (Qsum []) with 0. split; lra.
  - destruct IH as [IH1 IH2]; [intros y Hy; apply H; now right|].
    destruct (H x (or_introl eq_refl)) as [H1 H2].
    change (length (x :: l)) with (S (length l)).
    rewrite Nat2Z.inj_succ, <- Z.add_1_r, inject_Z_plus.
    change (Qsum (x :: l)) with (x + Qsum l).
    change (inject_Z 1) with 1. split; lra.
Qed.

Lemma mean_bounds (lo hi : Q) (l : list Q) :
  l <> [] -> (forall x, In x l -> lo <= x <= hi) -> lo <= mean l <= hi.
Proof.
  intros Hne H. destruct (Qsum_bounds lo hi l H) as [H1 H2]. unfold mean.
  assert (Hn : 0 < inject_Z (Z.of_nat (length l))).
  { change 0 with (inject_Z 0). rewrite <- Zlt_Qlt.
    destruct l; [congruence | simpl; lia]. }
  split.
  - apply Qle_shift_div_l; [exact Hn|]. lra.
  - apply Qle_shift_div_r; [exact Hn|]. lra.
Qed.

(** The mean of the first values of any rearrangement of a group. *)
Lemma top_mean_bounds (lo hi : Q) (k : nat) (vals ordered : list Q) :
  Permutation vals ordered -> vals <> [] ->
  (forall x, In x vals -> lo <= x <= hi) ->
  lo <= mean (firstn (S k) ordered) <= hi.
Proof.
  intros P Hne H. apply mean_bounds.
  - destruct ordered as [|y ordered]; [|discriminate].
    apply Permutation_sym, Permutation_nil in P. congruence.
  - intros x Hx. apply H. apply (Permutation_in _ (Permutation_sym P)).
    rewrite <- (firstn_skipn (S k) ordered). apply in_or_app. now left.
Qed.



(** X18. In the relational report the average of a region, rounded to two
    decimals by the query, lies within 0.005 of the range of the values the
    region has in the latest snapshot. *)
Theorem sql_average_within_region_range
    (sqlite : Sorter) (table : Sql.Table) (rs : Sql.Report)
    (g : str) (a lo hi : Q) (t : Z)
    (Hs : fst (Sql.run_sql_analysis sqlite (Some table)) = Ok rs)
    (Ht : Sql.latest_time rs = Some t)
    (Hg : In (g, a) (Sql.region_avg_df rs))
    (Hrange : forall r : Sql.DbRow, In r table ->
                Processed_Time r = t -> Region r = g ->
                lo <= GDP_USD_billion r <= hi) :
  lo - (1 # 200) <= a <= hi + (1 # 200).
Proof.
  simpl in Hs. injection Hs as <-. cbn [Sql.region_avg_df Sql.latest_time] in *.
  rewrite Ht in Hg. unfold Sql.query_top5_avg in Hg. cbv zeta in Hg.
  apply (Permutation_in _ (Permutation_sym (sort_desc_perm sqlite _ snd _))) in Hg.
  apply in_map_iff in Hg as (g' & [= -> <-] & Hkey).
  apply nodup_In, in_map_iff in Hkey as (r & Hr & Hin).
  unfold Sql.Average_GDP. rewrite RankedGDP_top5.
  set (rows := filter (Sql.at_time (Some t)) table) in *.
  set (vals := map (fun r : Sql.DbRow => GDP_USD_billion r)
                 (filter (fun r : Sql.DbRow => str_eqb (Region r) g) rows)).
  assert (Hm : lo <= mean (firstn 5 (sort_desc sqlite (fun v => v) vals)) <= hi).
  { apply (top_mean_bounds lo hi 4 vals).
    - apply sort_desc_perm.
    - subst vals. intros E.
      assert (Hf : In r (filter (fun r : Sql.DbRow => str_eqb (Region r) g) rows)).
      { apply filter_In. split; [exact Hin | now apply str_eqb_eq]. }
      apply (in_map (fun r : Sql.DbRow => GDP_USD_billion r)) in Hf.
      rewrite E in Hf. exact Hf.
    - intros x Hx. subst vals rows.
      apply in_map_iff in Hx as (d & <- & Hd).
      apply filter_In in Hd as [Hd Hreg]. apply filter_In in Hd as [Hd Htime].
      apply Hrange; [exact Hd | now apply Z.eqb_eq | now apply str_eqb_eq]. }
  destruct (sqlite_round2_rounded (mean (firstn 5 (sort_desc sqlite (fun v => v) vals))))
    as [_ Hnear].
  apply Qabs_Qle_condition in Hnear. destruct Hnear, Hm. split; lra.
Qed.

(** The group of [sample_raw]: 1.00, 1.00 and 1.01, reported as 1.00. *)
Lemma sql_average_within_region_range_witness :
  1 - (1 # 200) <= 100 # 100 <= (101 # 100) + (1 # 200).
Proof.
  apply (sql_average_within_region_range stable
           (fst (Sql.load_to_db (fst (Sql.transform None 0 sample_raw)) None))
           {| Sql.latest_time := Some 0%Z;
              Sql.high_gdp_df := [];
              Sql.region_avg_df := [(Unknown, 100 # 100)] |}
           Unknown (100 # 100) 1 (101 # 100) 0).
  - vm_compute. reflexivity.
  - reflexivity.
  - now left.
  - intros r Hr _ _. simpl in Hr.
    repeat (destruct Hr as [<-|Hr]; [split; vm_compute; discriminate|]). destruct Hr.
Defined.
